(** * Ahu: ingestion of ImpactU products and their normalisation for Moai

    A shallow embedding of [src/ahu/Ahu.py]: the paginated ingestion loop
    [fetch_data] and the normalisation transform [copy_data], both written
    over a small model of the Python values that the JSON API and the
    document store hand to the program. *)

From Stdlib Require Import List String Ascii ZArith Bool Lia DecimalString.
Import ListNotations.
Local Open Scope string_scope.
Local Open Scope Z_scope.
Set Warnings "-register-all".

(** ** Python values *)

Module Py.

(** The values carried by a JSON body or a stored document.  A string is a
    sequence of characters with code points below 256; numbers are the
    unbounded integers (floating point numbers are left out).  A [dict] keeps
    its keys in insertion order. *)
Inductive value : Type :=
| VNone
| VBool (b : bool)
| VInt (z : Z)
| VStr (s : string)
| VList (l : list value)
| VDict (d : list (string * value)).

Definition dict : Type := list (string * value).

(** The exceptions the two methods can meet. *)
Inductive exn : Type :=
| AttributeError
| KeyError
| IndexError
| TypeError.

Inductive result (A : Type) : Type :=
| Ok (a : A)
| Raise (e : exn).
Arguments Ok {A} a.
Arguments Raise {A} e.

Definition bind {A B : Type} (m : result A) (k : A -> result B) : result B :=
  match m with
  | Ok a => k a
  | Raise e => Raise e
  end.

Notation "x <- m ;; k" := (bind m (fun x => k))
  (at level 61, m at next level, right associativity).
Notation "' p <- m ;; k" := (bind m (fun x => match x with p => k end))
  (at level 61, p pattern, m at next level, right associativity).

(** [for x in xs: acc = body(acc, x)], stopping at the first exception. *)
Fixpoint foldM {A B : Type} (body : A -> B -> result A) (acc : A) (xs : list B)
  : result A :=
  match xs with
  | [] => Ok acc
  | x :: xs' => acc' <- body acc x ;; foldM body acc' xs'
  end.

(** [[f(x) for x in xs]], stopping at the first exception. *)
Fixpoint mapM {A B : Type} (f : A -> result B) (xs : list A) : result (list B) :=
  match xs with
  | [] => Ok []
  | x :: xs' => y <- f x ;; ys <- mapM f xs' ;; Ok (y :: ys)
  end.

(** *** Dictionaries *)

Fixpoint dict_get (d : dict) (k : string) : option value :=
  match d with
  | [] => None
  | (k', v) :: d' => if String.eqb k' k then Some v else dict_get d' k
  end.

(** [k in d] *)
Definition dict_mem (d : dict) (k : string) : bool :=
  match dict_get d k with Some _ => true | None => false end.

(** [d.get(k, default)] *)
Definition dict_get_default (d : dict) (k : string) (default : value) : value :=
  match dict_get d k with Some v => v | None => default end.

(** [d[k] = v]: an existing key keeps its place, a new one goes last. *)
Fixpoint dict_set (d : dict) (k : string) (v : value) : dict :=
  match d with
  | [] => [(k, v)]
  | (k', v') :: d' =>
      if String.eqb k' k then (k', v) :: d' else (k', v') :: dict_set d' k v
  end.

(** *** Operations on arbitrary values *)

(** [bool(v)] *)
Definition truthy (v : value) : bool :=
  match v with
  | VNone => false
  | VBool b => b
  | VInt z => negb (z =? 0)
  | VStr s => negb (String.eqb s "")
  | VList l => match l with [] => false | _ => true end
  | VDict d => match d with [] => false | _ => true end
  end.

(** [v == s] for a string literal [s] *)
Definition eq_str (v : value) (s : string) : bool :=
  match v with
  | VStr s' => String.eqb s' s
  | _ => false
  end.

(** [v.get(k, default)]: only a dictionary has the method. *)
Definition get (v : value) (k : string) (default : value) : result value :=
  match v with
  | VDict d => Ok (dict_get_default d k default)
  | _ => Raise AttributeError
  end.

(** [v[k]] for a string key [k] *)
Definition getitem (v : value) (k : string) : result value :=
  match v with
  | VDict d => match dict_get d k with Some x => Ok x | None => Raise KeyError end
  | _ => Raise TypeError
  end.

Fixpoint chars (s : string) : list value :=
  match s with
  | EmptyString => []
  | String c s' => VStr (String c EmptyString) :: chars s'
  end.

(** [iter(v)]: the elements of a list, the keys of a dictionary, the
    characters of a string. *)
Definition iter (v : value) : result (list value) :=
  match v with
  | VList l => Ok l
  | VDict d => Ok (map (fun kv => VStr (fst kv)) d)
  | VStr s => Ok (chars s)
  | _ => Raise TypeError
  end.

(** [v[0]]; the keys of a dictionary are strings, so [0] is never one. *)
Definition first (v : value) : result value :=
  match v with
  | VList [] => Raise IndexError
  | VList (x :: _) => Ok x
  | VStr EmptyString => Raise IndexError
  | VStr (String c _) => Ok (VStr (String c EmptyString))
  | VDict _ => Raise KeyError
  | _ => Raise TypeError
  end.

Fixpoint string_firstn (n : nat) (s : string) : string :=
  match n, s with
  | S n', String c s' => String c (string_firstn n' s')
  | _, _ => EmptyString
  end.

(** [v[:n]]; a dictionary rejects the slice (with [KeyError] instead from
    Python 3.12 on, where slices are hashable). *)
Definition slice_to (n : nat) (v : value) : result value :=
  match v with
  | VList l => Ok (VList (firstn n l))
  | VStr s => Ok (VStr (string_firstn n s))
  | _ => Raise TypeError
  end.

Fixpoint is_prefix (p s : string) : bool :=
  match p, s with
  | EmptyString, _ => true
  | String a p', String b s' => Ascii.eqb a b && is_prefix p' s'
  | String _ _, EmptyString => false
  end.

Fixpoint is_substring (p s : string) : bool :=
  is_prefix p s ||
  match s with
  | EmptyString => false
  | String _ s' => is_substring p s'
  end.

(** [k in v] for a string literal [k] *)
Definition contains (k : string) (v : value) : result bool :=
  match v with
  | VDict d => Ok (dict_mem d k)
  | VList l => Ok (existsb (fun x => eq_str x k) l)
  | VStr s => Ok (is_substring k s)
  | _ => Raise TypeError
  end.

(** *** Strings *)

(** [c.isspace()] for a character below 256 *)
Definition is_space (c : ascii) : bool :=
  let n := nat_of_ascii c in
  ((9 <=? n) && (n <=? 13) || (28 <=? n) && (n <=? 32)
   || (n =? 133) || (n =? 160))%nat.

(** [s.split()]: the maximal runs of characters that are not white space;
    [tok] is the run being read. *)
Fixpoint split_from (tok : string) (s : string) : list string :=
  match s with
  | EmptyString => if String.eqb tok "" then [] else [tok]
  | String c s' =>
      if is_space c
      then (if String.eqb tok "" then split_from "" s'
            else tok :: split_from "" s')
      else split_from (tok ++ String c EmptyString) s'
  end.

Definition split (s : string) : list string := split_from "" s.

(** [sep.join(xs)] *)
Fixpoint join (sep : string) (xs : list string) : string :=
  match xs with
  | [] => ""
  | [x] => x
  | x :: xs' => x ++ sep ++ join sep xs'
  end.

(** [name[0]] of a string that is not empty, [""] standing for the
    [IndexError] that a token of [split] never meets. *)
Definition head_char (s : string) : string :=
  match s with
  | EmptyString => ""
  | String c _ => String c EmptyString
  end.

(** *** [repr] and [str] *)

Definition hex_digit (n : nat) : ascii :=
  match String.get n "0123456789abcdef" with
  | Some c => c
  | None => "0"%char
  end.

Definition double_quote : ascii := ascii_of_nat 34.
Definition single_quote : ascii := ascii_of_nat 39.
Definition backslash : ascii := ascii_of_nat 92.

Fixpoint has_char (c : ascii) (s : string) : bool :=
  match s with
  | EmptyString => false
  | String c' s' => Ascii.eqb c' c || has_char c s'
  end.

(** One character of the [repr] of a string delimited by [quote]. *)
Definition repr_char (quote : ascii) (c : ascii) : string :=
  let n := nat_of_ascii c in
  if Ascii.eqb c quote || Ascii.eqb c backslash
  then String backslash (String c EmptyString)
  else if (n =? 9)%nat then String backslash "t"
  else if (n =? 10)%nat then String backslash "n"
  else if (n =? 13)%nat then String backslash "r"
  else if ((n <? 32) || (n =? 127) || (128 <=? n) && (n <=? 160)
           || (n =? 173))%nat
  then String backslash
         (String "x" (String (hex_digit (n / 16))
                        (String (hex_digit (n mod 16)) EmptyString)))
  else String c EmptyString.

Definition repr_str (s : string) : string :=
  let quote :=
    if has_char single_quote s && negb (has_char double_quote s)
    then double_quote else single_quote in
  String quote (String.concat "" (map (repr_char quote) (list_ascii_of_string s))
                ++ String quote EmptyString).

Definition repr_int (z : Z) : string := NilZero.string_of_int (Z.to_int z).

Fixpoint repr (v : value) : string :=
  match v with
  | VNone => "None"
  | VBool true => "True"
  | VBool false => "False"
  | VInt z => repr_int z
  | VStr s => repr_str s
  | VList l => "[" ++ join ", " (map repr l) ++ "]"
  | VDict d =>
      "{" ++ join ", " (map (fun '(k, x) => repr_str k ++ ": " ++ repr x) d)
      ++ "}"
  end.

(** [str(v)], which is also what an f-string substitutes for [{v}]. *)
Definition str (v : value) : string :=
  match v with
  | VStr s => s
  | _ => repr v
  end.

End Py.

(** ** The program *)

Module Ahu.
Import Py.

(** *** [fetch_data] *)

(** What [requests.get], [raise_for_status] and [json] leave the loop with:
    a [RequestException], or the decoded body. *)
Inductive response : Type :=
| RequestException
| Body (aff : value).

(** The staging collection and the pages asked for so far, oldest first.
    The [_id] that the driver adds to an inserted document, the progress
    lines and the pause between two pages are left out. *)
Record world : Type := {
  original_collection : list dict;
  requests : list Z
}.

(** [any(source.get("source") == "scholar" for source in sources)], which
    stops at the first hit. *)
Fixpoint any_scholar (sources : list value) : result bool :=
  match sources with
  | [] => Ok false
  | source :: rest =>
      s <- get source "source" VNone ;;
      if eq_str s "scholar" then Ok true else any_scholar rest
  end.

(** The body of [for entry in aff["data"]]. *)
Definition stage_entry (entry : value) (collection : list dict)
  : result (list dict) :=
  ids <- get entry "external_ids" (VList []) ;;
  sources <- iter ids ;;
  found <- any_scholar sources ;;
  if negb found then
    match entry with
    | VDict d => Ok (collection ++ [dict_set d "keep_abstract" (VBool false)])%list
    | _ => Raise TypeError
    end
  else Ok collection.

(** The records inserted before an exception stay in the collection. *)
Fixpoint stage_entries (entries : list value) (collection : list dict)
  : result unit * list dict :=
  match entries with
  | [] => (Ok tt, collection)
  | entry :: rest =>
      match stage_entry entry collection with
      | Ok collection' => stage_entries rest collection'
      | Raise e => (Raise e, collection)
      end
  end.

(** [n >= v] for an integer [n]; a Boolean counts as 0 or 1. *)
Definition ge_int (n : Z) (v : value) : result bool :=
  match v with
  | VInt t => Ok (n >=? t)
  | VBool b => Ok (n >=? (if b then 1 else 0))
  | _ => Raise TypeError
  end.

Section FetchData.

(** The remote API, as the answer to the request for each page, and
    [self.max_results]. *)
Variable server : Z -> response.
Variable max_results : Z.

(** [while True: ...] from [page]; [None] when [fuel] iterations were not
    enough, otherwise how the method ended and the world it left. *)
Fixpoint fetch_loop (fuel : nat) (page : Z) (w : world)
  : option (result unit * world) :=
  match fuel with
  | O => None
  | S fuel' =>
      let asked := (requests w ++ [page])%list in
      let leave r collection :=
        Some (r, {| original_collection := collection; requests := asked |}) in
      match server page with
      | RequestException => leave (Ok tt) (original_collection w)
      | Body aff =>
          match getitem aff "total_results" with
          | Raise e => leave (Raise e) (original_collection w)
          | Ok total_results =>
              match (data <- getitem aff "data" ;; iter data) with
              | Raise e => leave (Raise e) (original_collection w)
              | Ok entries =>
                  match stage_entries entries (original_collection w) with
                  | (Raise e, collection) => leave (Raise e) collection
                  | (Ok _, collection) =>
                      match (t <- getitem aff "total_results" ;;
                             ge_int (page * max_results) t) with
                      | Raise e => leave (Raise e) collection
                      | Ok true => leave (Ok tt) collection
                      | Ok false =>
                          fetch_loop fuel' (page + 1)
                            {| original_collection := collection;
                               requests := asked |}
                      end
                  end
              end
          end
      end
  end.

Definition fetch_data (fuel : nat) (collection : list dict)
  : option (result unit * world) :=
  fetch_loop fuel 1 {| original_collection := collection; requests := [] |}.

End FetchData.

(** The page size set by the constructor. *)
Definition default_max_results : Z := 100.

(** *** [copy_data] *)

(** The document built for each staged record. *)
Record new_document : Type := {
  journal : value;
  publisher : value;
  country : value;
  title : value;
  author : value;
  year : value;
  volume : value;
  issue : value;
  page : value;
  language : value;
  abstract : value;
  doi : value;
  pmid : value
}.

Definition derive_abstract (document : dict) : value :=
  let abstract := dict_get_default document "abstract" (VStr "") in
  let keep_abstract := dict_get_default document "keep_abstract" (VBool true) in
  if negb (truthy keep_abstract) then VStr "" else abstract.

(** [next((entry.get("name", "") for entry in source_name
          if "name" in entry), "")] *)
Fixpoint next_name (source_name : list value) : result value :=
  match source_name with
  | [] => Ok (VStr "")
  | entry :: rest =>
      has_name <- contains "name" entry ;;
      if has_name then get entry "name" (VStr "") else next_name rest
  end.

Definition derive_journal (document : dict) : result value :=
  source_name <-
    get (dict_get_default document "source" (VDict [])) "names" (VDict []) ;;
  entries <- iter source_name ;;
  next_name entries.

(** The [try] block: an [AttributeError] gives two empty strings. *)
Definition derive_publisher (document : dict) : result (value * value) :=
  let source_info := dict_get_default document "source" (VDict []) in
  let attempt :=
    match source_info with
    | VDict d =>
        if dict_mem d "publisher" then
          publisher_info <- getitem source_info "publisher" ;;
          publisher <- get publisher_info "name" (VStr "") ;;
          country <- get publisher_info "country_code" (VStr "") ;;
          Ok (publisher, country)
        else Ok (VStr "", VStr "")
    | _ => Ok (VStr "", VStr "")
    end in
  match attempt with
  | Raise AttributeError => Ok (VStr "", VStr "")
  | other => other
  end.

(** [document.get('titles', [{}])[0].get(k, "")] *)
Definition first_title (document : dict) (k : string) : result value :=
  t <- first (dict_get_default document "titles" (VList [VDict []])) ;;
  get t k (VStr "").

(** The body of [for author in authors_list]. *)
Definition format_author (author : value) : result string :=
  full_name <- get author "full_name" (VStr "") ;;
  let full_name := if truthy full_name then full_name else VStr "" in
  match full_name with
  | VStr full_name =>
      let name_parts := split full_name in
      if (1 <? List.length name_parts)%nat then
        let initials := join "" (map head_char (removelast name_parts)) in
        Ok (initials ++ ", " ++ last name_parts "")
      else Ok full_name
  | _ => Raise AttributeError
  end.

Definition derive_author (document : dict) : result value :=
  authors_list <- slice_to 3 (dict_get_default document "authors" (VList [])) ;;
  authors <- iter authors_list ;;
  formatted_authors <- mapM format_author authors ;;
  Ok (VStr (join " and " formatted_authors)).

(** [document['bibliographic_info'].get(k, '')] *)
Definition bibliographic_info (document : dict) (k : string) : result value :=
  info <- getitem (VDict document) "bibliographic_info" ;;
  get info k (VStr "").

Definition derive_page (start_page end_page : value) : value :=
  if truthy start_page && truthy end_page
  then VStr (str start_page ++ " - " ++ str end_page)
  else if truthy start_page || truthy end_page
  then VStr (str start_page ++ str end_page)
  else VStr "".

(** The body of [for external_ids in document['external_ids']], on the pair
    [(doi, pmid)]. *)
Definition scan_external_id (ids : value * value) (external_ids : value)
  : result (value * value) :=
  let '(doi, pmid) := ids in
  source <- get external_ids "source" (VStr "") ;;
  if eq_str source "doi" then
    doi' <- get external_ids "id" (VStr "") ;; Ok (doi', pmid)
  else if eq_str source "pmid" then
    pmid' <- get external_ids "id" (VStr "") ;; Ok (doi, pmid')
  else Ok (doi, pmid).

Definition derive_ids (document : dict) : result (value * value) :=
  if dict_mem document "external_ids" then
    external_ids <- getitem (VDict document) "external_ids" ;;
    entries <- iter external_ids ;;
    foldM scan_external_id (VStr "", VStr "") entries
  else Ok (VStr "", VStr "").

(** The body of [for document in self.original_collection.find()]. *)
Definition copy_document (document : dict) : result new_document :=
  let abstract := derive_abstract document in
  journal <- derive_journal document ;;
  '(publisher, country) <- derive_publisher document ;;
  title <- first_title document "title" ;;
  author <- derive_author document ;;
  let year := dict_get_default document "year_published" (VStr "") in
  volume <- bibliographic_info document "volume" ;;
  issue <- bibliographic_info document "issue" ;;
  start_page <- bibliographic_info document "start_page" ;;
  end_page <- bibliographic_info document "end_page" ;;
  let page := derive_page start_page end_page in
  lang <- first_title document "lang" ;;
  '(doi, pmid) <- derive_ids document ;;
  Ok {| journal := journal; publisher := publisher; country := country;
        title := title; author := author; year := year; volume := volume;
        issue := issue; page := page; language := lang;
        abstract := abstract; doi := doi; pmid := pmid |}.

(** [copy_data] on the staging collection, giving the destination
    collection after [insert_many]; nothing is written when the list is
    empty. *)
Definition copy_data (original_collection : list dict)
  (filtered_collection : list new_document) : result (list new_document) :=
  documents_to_insert <- mapM copy_document original_collection ;;
  match documents_to_insert with
  | [] => Ok filtered_collection
  | _ :: _ => Ok (filtered_collection ++ documents_to_insert)%list
  end.

End Ahu.

(** ** Shapes of records and the derivations as the specification words them *)

Module Spec.
Import Py Ahu.

(** The [external_ids] of a record, none when the key is absent. *)
Definition external_ids_of (record : dict) : list value :=
  match dict_get record "external_ids" with
  | Some (VList ids) => ids
  | _ => []
  end.

(** The entry is a pair whose [source] is [label]. *)
Definition source_is (label : string) (entry : value) : bool :=
  match entry with
  | VDict e =>
      match dict_get e "source" with
      | Some (VStr s) => String.eqb s label
      | _ => false
      end
  | _ => false
  end.

(** Some entry of [external_ids] has source [scholar]. *)
Definition has_scholar (record : dict) : bool :=
  existsb (source_is "scholar") (external_ids_of record).

Definition is_dict (v : value) : bool :=
  match v with VDict _ => true | _ => false end.

(** A Source Record as the data model has it, as far as the ingestion reads
    it: [external_ids], when present, is a sequence of objects. *)
Definition source_record (record : dict) : bool :=
  match dict_get record "external_ids" with
  | None => true
  | Some (VList ids) => forallb is_dict ids
  | Some _ => false
  end.

(** The Staged Record made from a Source Record. *)
Definition staged (record : dict) : dict :=
  dict_set record "keep_abstract" (VBool false).

(** Every page carries the same total and a sequence of Source Records. *)
Definition serves_total (server : Z -> response) (total : Z) : Prop :=
  forall page, exists aff records,
    server page = Body (VDict aff) /\
    dict_get aff "total_results" = Some (VInt total) /\
    dict_get aff "data" = Some (VList (map VDict records)) /\
    forallb source_record records = true.

(** The pages [1 .. n]. *)
Definition pages (n : nat) : list Z := map Z.of_nat (seq 1 n).

(** An author whose full name is [name]. *)
Definition author_named (author : value) (name : string) : Prop :=
  exists a, author = VDict a /\ dict_get a "full_name" = Some (VStr name).

(** A name of several tokens becomes the first characters of all tokens but
    the last, then [", "], then the last token; any other name is kept. *)
Definition spec_format_name (full_name : string) : string :=
  match rev (split full_name) with
  | last_token :: ((_ :: _) as leading) =>
      fold_right append "" (map (substring 0 1) (rev leading))
      ++ ", " ++ last_token
  | _ => full_name
  end.

(** At most the first three names, formatted and joined by [" and "]. *)
Definition spec_author (names : list string) : string :=
  join " and " (map spec_format_name (firstn 3 names)).

(** Both pages present, exactly one present, none present. *)
Definition spec_page (start_page end_page : string) : string :=
  match String.eqb start_page "", String.eqb end_page "" with
  | false, false => start_page ++ " - " ++ end_page
  | false, true => start_page
  | true, false => end_page
  | true, true => ""
  end.

(** The [external_ids] of [document] are the objects [entries]; none when
    the key is absent. *)
Definition has_external_ids (document : dict) (entries : list dict) : Prop :=
  dict_get document "external_ids" = Some (VList (map VDict entries)) \/
  dict_get document "external_ids" = None /\ entries = [].

(** The [id] of the last entry whose [source] is [label], [default] when
    there is none. *)
Definition last_id_or (label : string) (default : value) (entries : list dict)
  : value :=
  match find (fun e => eq_str (dict_get_default e "source" (VStr "")) label)
             (rev entries) with
  | Some e => dict_get_default e "id" (VStr "")
  | None => default
  end.

Definition spec_last_id (label : string) (entries : list dict) : value :=
  last_id_or label (VStr "") entries.

(** [source.names] of [document] are the objects [names]; none when
    [source] or [names] is absent. *)
Definition has_source_names (document : dict) (names : list dict) : Prop :=
  dict_get document "source" = None /\ names = [] \/
  exists source,
    dict_get document "source" = Some (VDict source) /\
    (dict_get source "names" = None /\ names = [] \/
     dict_get source "names" = Some (VList (map VDict names))).

(** The journal as the specification words it: the name of the first entry
    whose [name] is not empty. *)
Definition spec_journal_nonempty (names : list dict) : value :=
  match find (fun e => truthy (dict_get_default e "name" (VStr ""))) names with
  | Some e => dict_get_default e "name" (VStr "")
  | None => VStr ""
  end.

(** The journal as the code derives it: the name of the first entry that
    has the key [name], whatever the name is. *)
Definition spec_journal_named (names : list dict) : value :=
  match find (fun e => dict_mem e "name") names with
  | Some e => dict_get_default e "name" (VStr "")
  | None => VStr ""
  end.

Definition named_author (author : value) : bool :=
  match author with
  | VDict a =>
      match dict_get a "full_name" with
      | None | Some (VStr _) => true
      | Some _ => false
      end
  | _ => false
  end.

(** A Staged Record as the data model has it, as far as the transform reads
    it: [bibliographic_info] is an object, and [source], [source.names],
    [titles], [authors] and [external_ids], when present, are an object, a
    sequence of objects, a non-empty sequence of objects, a sequence of
    objects with a textual [full_name], and a sequence of objects. *)
Definition staged_record (document : dict) : bool :=
  match dict_get document "source" with
  | None => true
  | Some (VDict source) =>
      match dict_get source "names" with
      | None => true
      | Some (VList names) => forallb is_dict names
      | Some _ => false
      end
  | Some _ => false
  end
  && match dict_get document "titles" with
     | None | Some (VList (VDict _ :: _)) => true
     | Some _ => false
     end
  && match dict_get document "authors" with
     | None => true
     | Some (VList authors) => forallb named_author authors
     | Some _ => false
     end
  && match dict_get document "bibliographic_info" with
     | Some (VDict _) => true
     | _ => false
     end
  && source_record document.

(** A staged record with every part the transform reads, and the record
    the transform makes of it. *)
Definition sample_record : dict :=
  [("abstract", VStr "Text.");
   ("source",
    VDict [("names", VList [VDict [("lang", VStr "en")];
                            VDict [("name", VStr "Nature")]]);
           ("publisher", VDict [("name", VStr "Springer");
                                ("country_code", VStr "DE")])]);
   ("titles", VList [VDict [("title", VStr "On pages"); ("lang", VStr "en")]]);
   ("authors", VList [VDict [("full_name", VStr "Jane Ann Doe")];
                      VDict [("full_name", VStr "John Smith")];
                      VDict [("full_name", VStr "Ann Lee")];
                      VDict [("full_name", VStr "Doe")]]);
   ("year_published", VInt 2020);
   ("bibliographic_info",
    VDict [("volume", VStr "7"); ("issue", VStr "2");
           ("start_page", VStr "10"); ("end_page", VStr "20")]);
   ("external_ids", VList [VDict [("source", VStr "doi"); ("id", VStr "10.1/x")];
                           VDict [("source", VStr "pmid"); ("id", VStr "999")]]);
   ("keep_abstract", VBool false)].

Definition sample_normalized : new_document :=
  {| journal := VStr "Nature"; publisher := VStr "Springer";
     country := VStr "DE"; title := VStr "On pages";
     author := VStr "JA, Doe and J, Smith and A, Lee"; year := VInt 2020;
     volume := VStr "7"; issue := VStr "2"; page := VStr "10 - 20";
     language := VStr "en"; abstract := VStr ""; doi := VStr "10.1/x";
     pmid := VStr "999" |}.

(** A staged record without [bibliographic_info]. *)
Definition no_bibliographic_info : dict :=
  [("titles", VList [VDict [("title", VStr "On pages")]]);
   ("abstract", VStr "Text.");
   ("keep_abstract", VBool false)].

(** A staged record whose first [source.names] entry has an empty name. *)
Definition unnamed_first : dict :=
  [("source", VDict [("names", VList [VDict [("name", VStr "")];
                                      VDict [("name", VStr "Nature")]])]);
   ("bibliographic_info", VDict []);
   ("keep_abstract", VBool false)].

(** The pages [page], [page + 1], ... ([k] of them). *)
Fixpoint pages_from (page : Z) (k : nat) : list Z :=
  match k with
  | O => []
  | S k' => page :: pages_from (page + 1) k'
  end.

(** What a page of Source Records adds to the staging collection. *)
Definition staged_of (records : list dict) : list dict :=
  map staged (filter (fun r => negb (has_scholar r)) records).

(** The answer to the request for [page] is a body with the total [total]
    and the Source Records [records]. *)
Definition well_formed_page (server : Z -> response) (page : Z)
  (total : Z) (records : list dict) : Prop :=
  exists aff,
    server page = Body (VDict aff) /\
    dict_get aff "total_results" = Some (VInt total) /\
    dict_get aff "data" = Some (VList (map VDict records)) /\
    forallb source_record records = true.

(** What the pages of [ps] add, page after page, when [data q] are the
    records of page [q]. *)
Definition collected (data : Z -> list dict) (ps : list Z) : list dict :=
  flat_map (fun q => staged_of (data q)) ps.

(** A record as the ingestion leaves it in the staging collection. *)
Definition ingested (record : dict) : Prop :=
  dict_get record "keep_abstract" = Some (VBool false) /\
  has_scholar record = false.

(** The keys of a staged record that the transform reads. *)
Definition read_keys : list string :=
  ["abstract"; "keep_abstract"; "source"; "titles"; "authors";
   "year_published"; "bibliographic_info"; "external_ids"].

(** A page whose only record has neither [external_ids] nor
    [keep_abstract]. *)
Definition one_page (total : Z) : value :=
  VDict [("data", VList [VDict [("abstract", VStr "Text.");
                                ("bibliographic_info", VDict [])]]);
         ("count", VInt 1); ("page", VInt 1); ("total_results", VInt total)].

(** The world after [fetch_data] met [one_page] as its last page, from an
    empty staging collection. *)
Definition one_page_world : world :=
  {| original_collection :=
       [[("abstract", VStr "Text."); ("bibliographic_info", VDict []);
         ("keep_abstract", VBool false)]];
     requests := [1] |}.

(** A server with two pages of one record each, the second being the
    last. *)
Definition two_pages (page : Z) : response :=
  Body (VDict [("data",
                VList [VDict [("year_published", VInt page);
                              ("bibliographic_info", VDict [])]]);
               ("total_results", VInt 150)]).

Definition two_pages_data (page : Z) : list dict :=
  [[("year_published", VInt page); ("bibliographic_info", VDict [])]].

(** The publisher and its country: those of [source.publisher] when it is
    an object, two empty strings in every other case. *)
Definition spec_publisher (document : dict) : value * value :=
  match dict_get document "source" with
  | Some (VDict source) =>
      match dict_get source "publisher" with
      | Some (VDict info) =>
          (dict_get_default info "name" (VStr ""),
           dict_get_default info "country_code" (VStr ""))
      | _ => (VStr "", VStr "")
      end
  | _ => (VStr "", VStr "")
  end.

(** [titles] of [document] starts with the object [t]; the empty object
    when the key is absent. *)
Definition has_first_title (document : dict) (t : dict) : Prop :=
  dict_get document "titles" = None /\ t = [] \/
  exists rest, dict_get document "titles" = Some (VList (VDict t :: rest)).

(** The record made of the only record of [one_page]. *)
Definition one_page_normalized : new_document :=
  {| journal := VStr ""; publisher := VStr ""; country := VStr "";
     title := VStr ""; author := VStr ""; year := VStr "";
     volume := VStr ""; issue := VStr ""; page := VStr "";
     language := VStr ""; abstract := VStr ""; doi := VStr "";
     pmid := VStr "" |}.

(** Two records with the same values under the keys the transform reads. *)
Definition same_read_fields (document document' : dict) : Prop :=
  forall k, In k read_keys -> dict_get document k = dict_get document' k.

(** A staged record whose [end_page] is null, and the record the transform
    makes of it. *)
Definition null_end_page : dict :=
  [("bibliographic_info",
    VDict [("start_page", VStr "10"); ("end_page", VNone)]);
   ("keep_abstract", VBool false)].

Definition null_end_page_normalized : new_document :=
  {| journal := VStr ""; publisher := VStr ""; country := VStr "";
     title := VStr ""; author := VStr ""; year := VStr "";
     volume := VStr ""; issue := VStr ""; page := VStr "10None";
     language := VStr ""; abstract := VStr ""; doi := VStr "";
     pmid := VStr "" |}.

(** A staged record with a [start_page] and no [end_page], and the record
    the transform makes of it. *)
Definition only_start_page : dict :=
  [("bibliographic_info", VDict [("start_page", VStr "10")])].

Definition only_start_page_normalized : new_document :=
  {| journal := VStr ""; publisher := VStr ""; country := VStr "";
     title := VStr ""; author := VStr ""; year := VStr "";
     volume := VStr ""; issue := VStr ""; page := VStr "10";
     language := VStr ""; abstract := VStr ""; doi := VStr "";
     pmid := VStr "" |}.

(** A staged record with an empty [bibliographic_info]; the transform makes
    [one_page_normalized] of it. *)
Definition no_pages : dict := [("bibliographic_info", VDict [])].

End Spec.

(** ** Properties *)

Import Py Ahu Spec.

(** *** Dictionaries and the error monad *)

Lemma dict_get_set_same (d : dict) (k : string) (v : value) :
  dict_get (dict_set d k v) k = Some v.
Proof.
  induction d as [|[k' v'] d IH]; simpl.
  - now rewrite String.eqb_refl.
  - destruct (String.eqb k' k) eqn:E; simpl; now rewrite E.
Qed.

Lemma dict_get_set_other (d : dict) (k k' : string) (v : value) :
  k <> k' -> dict_get (dict_set d k v) k' = dict_get d k'.
Proof.
  intros Hk. induction d as [|[k0 v0] d IH]; simpl.
  - apply String.eqb_neq in Hk. now rewrite Hk.
  - destruct (String.eqb k0 k) eqn:E; simpl.
    + apply String.eqb_eq in E. subst k0.
      apply String.eqb_neq in Hk. now rewrite Hk.
    + now rewrite IH.
Qed.

Lemma bind_ok {A B : Type} (m : result A) (k : A -> result B) (b : B) :
  bind m k = Ok b -> exists a, m = Ok a /\ k a = Ok b.
Proof.
  destruct m as [a|e]; simpl; [eauto | discriminate].
Qed.

(** *** The ingestion filter *)

Lemma any_scholar_objects (ids : list value) :
  forallb is_dict ids = true ->
  any_scholar ids = Ok (existsb (source_is "scholar") ids).
Proof.
  induction ids as [|id ids IH]; simpl; [reflexivity|].
  intros H. apply andb_prop in H as [Hid Hids].
  destruct id as [| | | | |e]; try discriminate. simpl.
  unfold dict_get_default.
  destruct (dict_get e "source") as [[| | |s| |]|]; simpl; auto.
  destruct (String.eqb s "scholar"); simpl; auto.
Qed.

Lemma stage_entry_source_record (record : dict) (collection : list dict) :
  source_record record = true ->
  stage_entry (VDict record) collection =
  Ok (if has_scholar record then collection
      else (collection ++ [staged record])%list).
Proof.
  unfold source_record, stage_entry, has_scholar, external_ids_of, staged.
  simpl. unfold dict_get_default.
  destruct (dict_get record "external_ids") as [[| | | |ids|]|];
    try discriminate; simpl.
  - intros H. rewrite (any_scholar_objects ids H). simpl.
    now destruct (existsb _ ids).
  - reflexivity.
Qed.

Lemma stage_entries_source_records (records : list dict) :
  forallb source_record records = true ->
  forall collection,
    stage_entries (map VDict records) collection =
    (Ok tt,
     (collection
      ++ map staged (filter (fun r => negb (has_scholar r)) records))%list).
Proof.
  induction records as [|r records IH]; intros H collection.
  - simpl. now rewrite app_nil_r.
  - simpl in H. apply andb_prop in H as [Hr Hrs].
    cbn [map stage_entries filter].
    rewrite (stage_entry_source_record r collection Hr).
    destruct (has_scholar r); cbn [negb].
    + now apply IH.
    + rewrite (IH Hrs). cbn [map]. now rewrite <- app_assoc.
Qed.

Lemma has_scholar_staged (record : dict) :
  has_scholar (staged record) = has_scholar record.
Proof.
  unfold has_scholar, external_ids_of, staged.
  now rewrite dict_get_set_other by discriminate.
Qed.

(** One iteration of [while True] on a well-formed page: the records
    without a [scholar] entry are staged, then the loop stops when the
    offset has reached the total and goes on with the next page
    otherwise. *)
Lemma fetch_loop_page (server : Z -> response) (max_results : Z)
  (fuel : nat) (page : Z) (w : world)
  (aff : dict) (records : list dict) (total : Z) :
  server page = Body (VDict aff) ->
  dict_get aff "total_results" = Some (VInt total) ->
  dict_get aff "data" = Some (VList (map VDict records)) ->
  forallb source_record records = true ->
  let w' :=
    {| original_collection :=
         (original_collection w
          ++ map staged (filter (fun r => negb (has_scholar r)) records))%list;
       requests := (requests w ++ [page])%list |} in
  fetch_loop server max_results (S fuel) page w =
  if page * max_results >=? total then Some (Ok tt, w')
  else fetch_loop server max_results fuel (page + 1) w'.
Proof.
  intros Hbody Htotal Hdata Hrec. cbn [fetch_loop]. rewrite Hbody.
  cbn [getitem]. rewrite Htotal, Hdata. cbn [bind iter].
  rewrite (stage_entries_source_records records Hrec).
  cbn [bind ge_int].
  destruct (page * max_results >=? total); reflexivity.
Qed.

(** C1. On a page of Source Records the ingestion loop inserts, in order,
    exactly the records none of whose [external_ids] entries has source
    [scholar], each once and with [keep_abstract] set to false: a record is
    inserted if and only if it has no such entry. This is what the loop
    over [aff["data"]] does, and so what [fetch_data] leaves in the staging
    collection after a page that is the last one. *)
Theorem fetch_data_stages_exactly_the_records_without_scholar
  (records : list dict) (collection : list dict) :
  forallb source_record records = true ->
  let inserted := map staged (filter (fun r => negb (has_scholar r)) records) in
  stage_entries (map VDict records) collection
  = (Ok tt, (collection ++ inserted)%list) /\
  (forall r, In r records ->
     (In (staged r) inserted <-> has_scholar r = false)) /\
  (forall s, In s inserted ->
     dict_get s "keep_abstract" = Some (VBool false)) /\
  (forall server max_results fuel aff total,
     server 1 = Body (VDict aff) ->
     dict_get aff "total_results" = Some (VInt total) ->
     dict_get aff "data" = Some (VList (map VDict records)) ->
     total <= max_results ->
     fetch_data server max_results (S fuel) collection
     = Some (Ok tt, {| original_collection := (collection ++ inserted)%list;
                       requests := [1] |})).
Proof.
  intros H inserted. split; [|split; [|split]].
  - now apply stage_entries_source_records.
  - intros r Hr. subst inserted. split.
    + intros Hin. apply in_map_iff in Hin as [r' [Heq Hin]].
      apply filter_In in Hin as [_ Hno].
      apply negb_true_iff in Hno.
      rewrite <- (has_scholar_staged r), <- Heq, has_scholar_staged.
      exact Hno.
    + intros Hno. apply in_map. apply filter_In. split; [assumption|].
      now rewrite Hno.
  - intros s Hs. subst inserted.
    apply in_map_iff in Hs as [r [<- _]]. apply dict_get_set_same.
  - intros server max_results fuel aff total Hbody Htotal Hdata Hlast.
    unfold fetch_data.
    rewrite (fetch_loop_page server max_results fuel 1 _ aff records total
               Hbody Htotal Hdata H).
    replace (1 * max_results >=? total) with true
      by (symmetry; apply Z.geb_le; lia).
    reflexivity.
Qed.

Lemma fetch_data_stages_witness :
  stage_entries
    (map VDict
       [[("external_ids", VList [VDict [("source", VStr "scholar")]])];
        [("abstract", VStr "Text.")]]) []
  = (Ok tt, [[("abstract", VStr "Text."); ("keep_abstract", VBool false)]]).
Proof.
  exact (proj1 (fetch_data_stages_exactly_the_records_without_scholar
                  [[("external_ids", VList [VDict [("source", VStr "scholar")]])];
                   [("abstract", VStr "Text.")]] [] eq_refl)).
Defined.

(** *** Termination of the ingestion loop *)

Section Termination.

Variable server : Z -> response.
Variable max_results total : Z.
Hypothesis Hserver : serves_total server total.

Lemma fetch_loop_step (fuel : nat) (page : Z) (w : world) :
  exists collection,
    let w' := {| original_collection := collection;
                 requests := (requests w ++ [page])%list |} in
    fetch_loop server max_results (S fuel) page w =
    if page * max_results >=? total then Some (Ok tt, w')
    else fetch_loop server max_results fuel (page + 1) w'.
Proof.
  destruct (Hserver page) as (aff & records & Hbody & Htotal & Hdata & Hrec).
  eexists.
  exact (fetch_loop_page server max_results fuel page w aff records total
           Hbody Htotal Hdata Hrec).
Qed.

Lemma fetch_loop_reaches (n : nat) :
  total <= Z.of_nat n * max_results ->
  (forall q, 1 <= q < Z.of_nat n -> q * max_results < total) ->
  forall (k : nat) (page : Z) (w : world) (fuel : nat),
    page = Z.of_nat n - Z.of_nat k -> 1 <= page -> (k < fuel)%nat ->
    exists collection,
      fetch_loop server max_results fuel page w =
      Some (Ok tt,
            {| original_collection := collection;
               requests :=
                 (requests w
                  ++ map Z.of_nat (seq (Z.to_nat page) (S k)))%list |}).
Proof.
  intros Hlast Hbefore.
  induction k as [|k IH]; intros page w fuel Hpage Hpos Hfuel;
    (destruct fuel as [|fuel]; [lia|]);
    destruct (fetch_loop_step fuel page w) as [collection Hstep];
    cbv zeta in Hstep; rewrite Hstep.
  - replace (page * max_results >=? total) with true
      by (symmetry; apply Z.geb_le; subst page; lia).
    exists collection. cbn [seq map]. now rewrite Z2Nat.id by lia.
  - replace (page * max_results >=? total) with false.
    2:{ symmetry. rewrite Z.geb_leb. apply Z.leb_gt. apply Hbefore. lia. }
    destruct (IH (page + 1)
                {| original_collection := collection;
                   requests := (requests w ++ [page])%list |} fuel)
      as [collection' Hrun]; try lia.
    exists collection'. rewrite Hrun. cbn [requests].
    rewrite <- app_assoc. do 3 f_equal.
    replace (Z.to_nat (page + 1)) with (S (Z.to_nat page)) by lia.
    change (seq (Z.to_nat page) (S (S k)))
      with (Z.to_nat page :: seq (S (Z.to_nat page)) (S k)).
    cbn [map app]. now rewrite Z2Nat.id by lia.
Qed.

End Termination.

(** C3. When every page reports the same total [total] and no request
    fails, the ingestion loop terminates: it asks for the pages [1 .. n]
    and no other, where [n] is the first page with
    [n * max_results >= total]; enough fuel (at least [n] iterations) always
    gives this result. For a total of 250 and the page size 100, [n] is 3
    and the requests are the pages 1, 2, 3. *)
Theorem fetch_data_terminates_at_first_page_reaching_total
  (server : Z -> response) (max_results total : Z) (collection : list dict) :
  0 < max_results ->
  serves_total server total ->
  exists n : nat,
    (1 <= n)%nat /\
    total <= Z.of_nat n * max_results /\
    (forall q, 1 <= q < Z.of_nat n -> q * max_results < total) /\
    (forall fuel, (n <= fuel)%nat ->
       exists collection',
         fetch_data server max_results fuel collection =
         Some (Ok tt, {| original_collection := collection';
                         requests := pages n |})) /\
    (max_results = default_max_results -> total = 250 ->
     n = 3%nat /\ pages n = [1; 2; 3]).
Proof.
  intros Hmax Hserver.
  set (c := (total + max_results - 1) / max_results).
  assert (Hc1 : c * max_results <= total + max_results - 1).
  { unfold c. rewrite Z.mul_comm. apply Z.mul_div_le. lia. }
  assert (Hc2 : total + max_results - 1 < (c + 1) * max_results).
  { unfold c. rewrite Z.mul_comm.
    apply (Z.mul_succ_div_gt (total + max_results - 1) max_results). lia. }
  exists (Z.to_nat (Z.max 1 c)).
  assert (Hn : Z.of_nat (Z.to_nat (Z.max 1 c)) = Z.max 1 c) by lia.
  assert (Hlast : total <= Z.of_nat (Z.to_nat (Z.max 1 c)) * max_results).
  { rewrite Hn. nia. }
  assert (Hbefore : forall q, 1 <= q < Z.of_nat (Z.to_nat (Z.max 1 c)) ->
                              q * max_results < total).
  { intros q Hq. rewrite Hn in Hq. nia. }
  repeat split; try assumption; try lia.
  - intros fuel Hfuel.
    destruct (fetch_loop_reaches server max_results total Hserver
                (Z.to_nat (Z.max 1 c)) Hlast Hbefore
                (Z.to_nat (Z.max 1 c) - 1) 1
                {| original_collection := collection; requests := [] |} fuel)
      as [collection' Hrun]; try lia.
    exists collection'. unfold fetch_data. rewrite Hrun. cbn [requests app].
    unfold pages.
    replace (S (Z.to_nat (Z.max 1 c) - 1)) with (Z.to_nat (Z.max 1 c)) by lia.
    reflexivity.
  - subst max_results total. reflexivity.
  - subst max_results total. reflexivity.
Qed.

Lemma fetch_data_terminates_witness :
  exists n : nat,
    (1 <= n)%nat /\
    250 <= Z.of_nat n * default_max_results /\
    (forall q, 1 <= q < Z.of_nat n -> q * default_max_results < 250) /\
    (forall fuel, (n <= fuel)%nat ->
       exists collection',
         fetch_data
           (fun page =>
              Body (VDict [("data", VList []); ("count", VInt 0);
                           ("page", VInt page); ("total_results", VInt 250)]))
           default_max_results fuel [] =
         Some (Ok tt, {| original_collection := collection';
                         requests := pages n |})) /\
    (default_max_results = default_max_results -> 250 = 250 ->
     n = 3%nat /\ pages n = [1; 2; 3]).
Proof.
  apply (fetch_data_terminates_at_first_page_reaching_total
           (fun page =>
              Body (VDict [("data", VList []); ("count", VInt 0);
                           ("page", VInt page); ("total_results", VInt 250)]))
           default_max_results 250 []).
  - reflexivity.
  - intros page. exists [("data", VList []); ("count", VInt 0);
                         ("page", VInt page); ("total_results", VInt 250)], [].
    repeat split.
Defined.

(** *** The normalisation of one record *)

(** What a normalised record says about the derivations that made it. *)
Lemma copy_document_ok (document : dict) (nd : new_document) :
  copy_document document = Ok nd ->
  abstract nd = derive_abstract document /\
  derive_journal document = Ok (journal nd) /\
  derive_publisher document = Ok (publisher nd, country nd) /\
  first_title document "title" = Ok (title nd) /\
  derive_author document = Ok (author nd) /\
  year nd = dict_get_default document "year_published" (VStr "") /\
  bibliographic_info document "volume" = Ok (volume nd) /\
  bibliographic_info document "issue" = Ok (issue nd) /\
  (exists start_page end_page,
     bibliographic_info document "start_page" = Ok start_page /\
     bibliographic_info document "end_page" = Ok end_page /\
     page nd = derive_page start_page end_page) /\
  first_title document "lang" = Ok (language nd) /\
  derive_ids document = Ok (doi nd, pmid nd).
Proof.
  unfold copy_document. intros H.
  apply bind_ok in H as (j & Hj & H).
  apply bind_ok in H as ([p c] & Hp & H).
  apply bind_ok in H as (t & Ht & H).
  apply bind_ok in H as (a & Ha & H).
  apply bind_ok in H as (v & Hv & H).
  apply bind_ok in H as (i & Hi & H).
  apply bind_ok in H as (sp & Hsp & H).
  apply bind_ok in H as (ep & Hep & H).
  apply bind_ok in H as (l & Hl & H).
  apply bind_ok in H as ([d m] & Hd & H).
  injection H as <-. cbn.
  repeat split; try assumption. now exists sp, ep.
Qed.

(** C2. A staged record without [bibliographic_info] is not tolerated: its
    normalisation raises [KeyError], and so does the whole run of
    [copy_data] over a staging collection that holds it, which then writes
    nothing. *)
Theorem copy_data_fails_without_bibliographic_info :
  dict_get no_bibliographic_info "bibliographic_info" = None /\
  copy_document no_bibliographic_info = Raise KeyError /\
  forall filtered_collection,
    copy_data [no_bibliographic_info] filtered_collection = Raise KeyError.
Proof.
  repeat split.
Qed.

(** No record without [bibliographic_info] is ever normalised. *)
Lemma copy_document_needs_bibliographic_info (document : dict) :
  dict_get document "bibliographic_info" = None ->
  forall nd, copy_document document <> Ok nd.
Proof.
  intros Hnone nd H.
  apply copy_document_ok in H as (_ & _ & _ & _ & _ & _ & Hvolume & _).
  unfold bibliographic_info in Hvolume. cbn [getitem] in Hvolume.
  rewrite Hnone in Hvolume. discriminate.
Qed.

(** An empty [titles] is not tolerated either: its first element is asked
    for. *)
Remark copy_document_empty_titles :
  copy_document [("titles", VList []); ("bibliographic_info", VDict [])]
  = Raise IndexError.
Proof. reflexivity. Qed.

(** C8. The normalised abstract is the record's [abstract] as it is when
    [keep_abstract] is true or absent, and the empty string when
    [keep_abstract] is false. *)
Theorem abstract_kept_or_suppressed (document : dict) (nd : new_document) :
  copy_document document = Ok nd ->
  (dict_get document "keep_abstract" = Some (VBool true) \/
   dict_get document "keep_abstract" = None ->
   abstract nd = dict_get_default document "abstract" (VStr "")) /\
  (dict_get document "keep_abstract" = Some (VBool false) ->
   abstract nd = VStr "").
Proof.
  intros H. apply copy_document_ok in H as (Habs & _). rewrite Habs.
  unfold derive_abstract, dict_get_default.
  split.
  - intros [-> | ->]; reflexivity.
  - intros ->. reflexivity.
Qed.

Lemma abstract_kept_or_suppressed_witness :
  (dict_get sample_record "keep_abstract" = Some (VBool true) \/
   dict_get sample_record "keep_abstract" = None ->
   abstract sample_normalized
   = dict_get_default sample_record "abstract" (VStr "")) /\
  (dict_get sample_record "keep_abstract" = Some (VBool false) ->
   abstract sample_normalized = VStr "").
Proof.
  apply (abstract_kept_or_suppressed sample_record sample_normalized).
  reflexivity.
Defined.

(** *** Pages *)

Lemma derive_page_strings (start_page end_page : string) :
  derive_page (VStr start_page) (VStr end_page)
  = VStr (spec_page start_page end_page).
Proof.
  unfold derive_page, spec_page, truthy, str.
  destruct (String.eqb_spec start_page ""), (String.eqb_spec end_page "");
    subst; cbn [negb andb orb]; try reflexivity.
  - f_equal. induction start_page as [|c s IH]; [congruence|].
    destruct s; [reflexivity|]. cbn [append] in *. f_equal.
    apply IH. discriminate.
Qed.

(** A page that is present and is not a text is formatted even when it is
    falsy: a null [end_page] shows as [None]. *)
Remark derive_page_null_end :
  derive_page (VStr "10") VNone = VStr "10None".
Proof. reflexivity. Qed.

(** C5. The page of a record with [start_page] ["10"] and a null
    [end_page]: the test [start_page and end_page] takes the null for an
    absent page, and the f-string of the next branch then prints it, so
    that the normalised page is ["10None"] and not ["10"], the only page
    that is present. The same holds for every start page that is not
    empty. *)
Theorem page_of_a_null_end_page_shows_None :
  copy_document null_end_page = Ok null_end_page_normalized /\
  page null_end_page_normalized = VStr "10None" /\
  page null_end_page_normalized <> VStr (spec_page "10" "") /\
  (forall filtered_collection,
     copy_data [null_end_page] filtered_collection
     = Ok (filtered_collection ++ [null_end_page_normalized])%list) /\
  (forall start_page,
     start_page <> "" ->
     derive_page (VStr start_page) VNone = VStr (start_page ++ "None")).
Proof.
  repeat split; try discriminate.
  intros start_page Hstart. unfold derive_page. cbn [truthy str repr].
  apply String.eqb_neq in Hstart. now rewrite Hstart.
Qed.

(** X21. With [start_page] and [end_page] of [bibliographic_info] being
    texts (an absent one counting as the empty text), the normalised page
    is [start - end] when both are not empty, the one that is not empty
    when exactly one is, and the empty string when both are empty. *)
Theorem page_from_start_and_end
  (document info : dict) (start_page end_page : string) (nd : new_document) :
  dict_get document "bibliographic_info" = Some (VDict info) ->
  dict_get_default info "start_page" (VStr "") = VStr start_page ->
  dict_get_default info "end_page" (VStr "") = VStr end_page ->
  copy_document document = Ok nd ->
  page nd = VStr (spec_page start_page end_page) /\
  (start_page <> "" -> end_page <> "" ->
   page nd = VStr (start_page ++ " - " ++ end_page)) /\
  (start_page <> "" -> end_page = "" -> page nd = VStr start_page) /\
  (start_page = "" -> end_page <> "" -> page nd = VStr end_page) /\
  (start_page = "" -> end_page = "" -> page nd = VStr "") /\
  spec_page "10" "20" = "10 - 20" /\
  spec_page "10" "" = "10" /\
  spec_page "" "" = "".
Proof.
  intros Hinfo Hstart Hend H.
  apply copy_document_ok in H
    as (_ & _ & _ & _ & _ & _ & _ & _ & (sp & ep & Hsp & Hep & Hpage) & _).
  unfold bibliographic_info in Hsp, Hep. cbn [getitem] in Hsp, Hep.
  rewrite Hinfo in Hsp, Hep. cbn [bind get] in Hsp, Hep.
  rewrite Hstart in Hsp. rewrite Hend in Hep.
  injection Hsp as <-. injection Hep as <-.
  rewrite derive_page_strings in Hpage. rewrite Hpage.
  unfold spec_page.
  repeat split; try reflexivity.
  - intros Hs He. apply String.eqb_neq in Hs, He. now rewrite Hs, He.
  - intros Hs ->. apply String.eqb_neq in Hs. now rewrite Hs.
  - intros -> He. apply String.eqb_neq in He. now rewrite He.
  - intros -> ->. reflexivity.
Qed.

Lemma page_from_start_and_end_witness :
  page sample_normalized = VStr (spec_page "10" "20") /\
  page only_start_page_normalized = VStr (spec_page "10" "") /\
  page one_page_normalized = VStr (spec_page "" "").
Proof.
  split; [|split].
  - exact (proj1 (page_from_start_and_end sample_record
                    [("volume", VStr "7"); ("issue", VStr "2");
                     ("start_page", VStr "10"); ("end_page", VStr "20")]
                    "10" "20" sample_normalized
                    eq_refl eq_refl eq_refl eq_refl)).
  - exact (proj1 (page_from_start_and_end only_start_page
                    [("start_page", VStr "10")]
                    "10" "" only_start_page_normalized
                    eq_refl eq_refl eq_refl eq_refl)).
  - exact (proj1 (page_from_start_and_end no_pages []
                    "" "" one_page_normalized
                    eq_refl eq_refl eq_refl eq_refl)).
Defined.

(** *** Authors *)

Lemma join_no_separator (xs : list string) :
  join "" xs = fold_right append "" xs.
Proof.
  induction xs as [|x xs IH]; [reflexivity|].
  destruct xs as [|y xs].
  - simpl. induction x as [|c x IHx]; simpl; [reflexivity | now rewrite <- IHx].
  - change (join "" (x :: y :: xs)) with (x ++ "" ++ join "" (y :: xs)).
    rewrite IH. reflexivity.
Qed.

Lemma head_char_substring (s : string) : head_char s = substring 0 1 s.
Proof.
  destruct s as [|c s]; [reflexivity|]. simpl. now destruct s.
Qed.

Lemma format_author_text (a : dict) (name : string) :
  dict_get_default a "full_name" (VStr "") = VStr name ->
  format_author (VDict a) = Ok (spec_format_name name).
Proof.
  intros Hname.
  unfold format_author, spec_format_name. cbn [get bind]. rewrite Hname.
  assert (Hsame : (if truthy (VStr name) then VStr name else VStr "")
                  = VStr name).
  { cbn [truthy]. destruct (String.eqb_spec name ""); subst; reflexivity. }
  rewrite Hsame.
  cbv zeta. generalize (split name). intros parts.
  destruct (rev parts) as [|last_token [|x leading]] eqn:Hrev;
    apply (f_equal (@rev string)) in Hrev;
    rewrite rev_involutive in Hrev; subst parts.
  - reflexivity.
  - reflexivity.
  - replace (1 <? List.length (rev (last_token :: x :: leading)))%nat
      with true.
    2:{ symmetry. apply Nat.ltb_lt. rewrite length_rev. simpl. lia. }
    change (rev (last_token :: x :: leading))
      with (rev (x :: leading) ++ [last_token])%list.
    rewrite removelast_last, last_last, join_no_separator.
    do 3 f_equal. apply map_ext. exact head_char_substring.
Qed.

Lemma format_author_named (author : value) (name : string) :
  author_named author name ->
  format_author author = Ok (spec_format_name name).
Proof.
  intros (a & -> & Hname). apply format_author_text.
  unfold dict_get_default. now rewrite Hname.
Qed.

Lemma mapM_format_author (authors : list value) (names : list string) :
  Forall2 author_named authors names ->
  mapM format_author authors = Ok (map spec_format_name names).
Proof.
  induction 1 as [|author name authors names Hnamed _ IH]; [reflexivity|].
  cbn [mapM map]. rewrite (format_author_named _ _ Hnamed). cbn [bind].
  now rewrite IH.
Qed.

Lemma Forall2_firstn {A B : Type} (R : A -> B -> Prop) (n : nat)
  (xs : list A) (ys : list B) :
  Forall2 R xs ys -> Forall2 R (firstn n xs) (firstn n ys).
Proof.
  intros H. revert n.
  induction H; intros [|n]; simpl; constructor; auto.
Qed.

Lemma derive_author_named
  (document : dict) (authors : list value) (names : list string) :
  dict_get document "authors" = Some (VList authors) ->
  Forall2 author_named authors names ->
  derive_author document = Ok (VStr (spec_author names)).
Proof.
  intros Hauthors Hnamed.
  unfold derive_author, dict_get_default, spec_author.
  rewrite Hauthors. cbn [slice_to bind iter].
  now rewrite (mapM_format_author _ _ (Forall2_firstn _ 3 _ _ Hnamed)).
Qed.

(** C4. When [authors] is a sequence of authors with the full names
    [names], the normalised author is made of at most the first three
    names, each formatted (initials of the leading tokens, [", "], last
    token; a name of at most one token as it is) and joined by [" and "]. *)
Theorem author_from_first_three_names
  (document : dict) (authors : list value) (names : list string) :
  dict_get document "authors" = Some (VList authors) ->
  Forall2 author_named authors names ->
  derive_author document = Ok (VStr (spec_author names)) /\
  (forall nd, copy_document document = Ok nd ->
              author nd = VStr (spec_author names)) /\
  spec_author ["Jane Ann Doe"; "John Smith"; "Ann Lee"]
  = "JA, Doe and J, Smith and A, Lee" /\
  spec_format_name "Jane Ann Doe" = "JA, Doe" /\
  spec_format_name "Doe" = "Doe" /\
  spec_format_name "" = "".
Proof.
  intros Hauthors Hnamed.
  pose proof (derive_author_named document authors names Hauthors Hnamed)
    as Hderive.
  repeat split; try assumption.
  intros nd H.
  apply copy_document_ok in H as (_ & _ & _ & _ & Hauthor & _).
  congruence.
Qed.

Lemma author_from_first_three_names_witness :
  derive_author sample_record
  = Ok (VStr (spec_author ["Jane Ann Doe"; "John Smith"; "Ann Lee"; "Doe"])) /\
  (forall nd, copy_document sample_record = Ok nd ->
              author nd
              = VStr (spec_author
                        ["Jane Ann Doe"; "John Smith"; "Ann Lee"; "Doe"])) /\
  spec_author ["Jane Ann Doe"; "John Smith"; "Ann Lee"]
  = "JA, Doe and J, Smith and A, Lee" /\
  spec_format_name "Jane Ann Doe" = "JA, Doe" /\
  spec_format_name "Doe" = "Doe" /\
  spec_format_name "" = "".
Proof.
  apply (author_from_first_three_names sample_record
           [VDict [("full_name", VStr "Jane Ann Doe")];
            VDict [("full_name", VStr "John Smith")];
            VDict [("full_name", VStr "Ann Lee")];
            VDict [("full_name", VStr "Doe")]]).
  - reflexivity.
  - repeat constructor; eexists; split; reflexivity.
Defined.

(** *** External identifiers *)

Lemma find_last {A : Type} (f : A -> bool) (xs : list A) (x : A) :
  find f (xs ++ [x])%list =
  match find f xs with
  | Some y => Some y
  | None => if f x then Some x else None
  end.
Proof.
  induction xs as [|y xs IH]; simpl; [reflexivity|].
  now destruct (f y).
Qed.

Lemma last_id_or_cons (label : string) (default : value)
  (entry : dict) (entries : list dict) :
  last_id_or label default (entry :: entries) =
  last_id_or label
    (if eq_str (dict_get_default entry "source" (VStr "")) label
     then dict_get_default entry "id" (VStr "") else default)
    entries.
Proof.
  unfold last_id_or. cbn [rev]. rewrite find_last.
  destruct (find _ (rev entries)); [reflexivity|].
  now destruct (eq_str _ label).
Qed.

Lemma eq_str_doi_not_pmid (v : value) :
  eq_str v "doi" = true -> eq_str v "pmid" = false.
Proof.
  destruct v as [| | |s| |]; simpl; try discriminate.
  intros H. apply String.eqb_eq in H. now subst s.
Qed.

Lemma foldM_scan_external_id (entries : list dict) :
  forall doi pmid,
    foldM scan_external_id (doi, pmid) (map VDict entries) =
    Ok (last_id_or "doi" doi entries, last_id_or "pmid" pmid entries).
Proof.
  induction entries as [|entry entries IH]; intros doi pmid; [reflexivity|].
  cbn [map foldM]. rewrite !last_id_or_cons.
  unfold scan_external_id. cbn [get bind].
  destruct (eq_str (dict_get_default entry "source" (VStr "")) "doi") eqn:Hdoi.
  - rewrite (eq_str_doi_not_pmid _ Hdoi). cbn [bind]. apply IH.
  - destruct (eq_str (dict_get_default entry "source" (VStr "")) "pmid");
      cbn [bind]; apply IH.
Qed.

Lemma derive_ids_objects (document : dict) (entries : list dict) :
  has_external_ids document entries ->
  derive_ids document
  = Ok (spec_last_id "doi" entries, spec_last_id "pmid" entries).
Proof.
  unfold derive_ids, dict_mem, has_external_ids, spec_last_id.
  intros [Hids | [Hnone ->]].
  - cbn [getitem]. rewrite Hids. cbn [bind iter].
    apply foldM_scan_external_id.
  - rewrite Hnone. reflexivity.
Qed.

(** C6. When [external_ids] is a sequence of objects, or absent, the
    normalised [doi] (and [pmid]) is the [id] of the last entry whose
    [source] is [doi] (and [pmid]), and the empty string when there is no
    such entry. *)
Theorem doi_and_pmid_from_last_matching_entry
  (document : dict) (entries : list dict) :
  has_external_ids document entries ->
  derive_ids document
  = Ok (spec_last_id "doi" entries, spec_last_id "pmid" entries) /\
  (forall nd, copy_document document = Ok nd ->
              doi nd = spec_last_id "doi" entries /\
              pmid nd = spec_last_id "pmid" entries) /\
  (entries = [] ->
   spec_last_id "doi" entries = VStr "" /\
   spec_last_id "pmid" entries = VStr "") /\
  spec_last_id "doi" [[("source", VStr "doi"); ("id", VStr "10.1/x")];
                      [("source", VStr "pmid"); ("id", VStr "999")]]
  = VStr "10.1/x" /\
  spec_last_id "pmid" [[("source", VStr "doi"); ("id", VStr "10.1/x")];
                       [("source", VStr "pmid"); ("id", VStr "999")]]
  = VStr "999" /\
  spec_last_id "doi" [[("source", VStr "doi"); ("id", VStr "10.1/x")];
                      [("source", VStr "doi"); ("id", VStr "10.2/y")]]
  = VStr "10.2/y".
Proof.
  intros Hids.
  pose proof (derive_ids_objects document entries Hids) as Hderive.
  split; [assumption|]. split.
  - intros nd H.
    apply copy_document_ok in H
      as (_ & _ & _ & _ & _ & _ & _ & _ & _ & _ & Hnd).
    rewrite Hnd in Hderive. injection Hderive as Hdoi Hpmid. now split.
  - split; [intros ->|]; repeat split.
Qed.

Lemma doi_and_pmid_witness :
  derive_ids sample_record = Ok (VStr "10.1/x", VStr "999").
Proof.
  exact (proj1 (doi_and_pmid_from_last_matching_entry sample_record
                  [[("source", VStr "doi"); ("id", VStr "10.1/x")];
                   [("source", VStr "pmid"); ("id", VStr "999")]]
                  (or_introl eq_refl))).
Defined.

(** *** The journal *)

Lemma next_name_objects (names : list dict) :
  next_name (map VDict names) = Ok (spec_journal_named names).
Proof.
  unfold spec_journal_named.
  induction names as [|entry names IH]; [reflexivity|].
  cbn [map next_name contains bind find].
  destruct (dict_mem entry "name"); [reflexivity | exact IH].
Qed.

Lemma derive_journal_objects (document : dict) (names : list dict) :
  has_source_names document names ->
  derive_journal document = Ok (spec_journal_named names).
Proof.
  unfold derive_journal, has_source_names, dict_get_default.
  intros [[Hsource ->] | (source & Hsource & [[Hnames ->] | Hnames])];
    rewrite Hsource; cbn [get bind]; unfold dict_get_default.
  - reflexivity.
  - rewrite Hnames. reflexivity.
  - rewrite Hnames. cbn [bind iter]. apply next_name_objects.
Qed.

(** C7, as the specification words it, fails: the record [unnamed_first]
    has the names [""] and ["Nature"], in this order; the first entry with
    a name that is not empty is ["Nature"], and the normalised journal is
    the empty string. *)
Lemma journal_is_not_the_first_nonempty_name :
  has_source_names unnamed_first
    [[("name", VStr "")]; [("name", VStr "Nature")]] /\
  spec_journal_nonempty [[("name", VStr "")]; [("name", VStr "Nature")]]
  = VStr "Nature" /\
  exists nd,
    copy_document unnamed_first = Ok nd /\
    journal nd = VStr "" /\
    journal nd
    <> spec_journal_nonempty [[("name", VStr "")]; [("name", VStr "Nature")]].
Proof.
  split; [|split].
  - right. eexists. split; [reflexivity|]. right. reflexivity.
  - reflexivity.
  - eexists. split; [reflexivity|]. split; [reflexivity | discriminate].
Qed.

(** C7, amended. When [source.names] is a sequence of objects, the
    normalised journal is the [name] of the first entry that has the key
    [name], be that name empty or not; it is the empty string when
    [source] or [source.names] is absent or no entry has the key. *)
Theorem journal_from_first_entry_with_name_key
  (document : dict) (names : list dict) :
  has_source_names document names ->
  derive_journal document = Ok (spec_journal_named names) /\
  (forall nd, copy_document document = Ok nd ->
              journal nd = spec_journal_named names) /\
  (names = [] -> spec_journal_named names = VStr "") /\
  ((forall entry, In entry names -> dict_get entry "name" = None) ->
   spec_journal_named names = VStr "").
Proof.
  intros Hnames.
  pose proof (derive_journal_objects document names Hnames) as Hderive.
  split; [assumption|]. split; [|split].
  - intros nd H. apply copy_document_ok in H as (_ & Hnd & _). congruence.
  - intros ->. reflexivity.
  - intros Hnone. unfold spec_journal_named.
    destruct (find _ names) as [entry|] eqn:Hfind; [|reflexivity].
    apply find_some in Hfind as [Hin Hmem].
    unfold dict_mem in Hmem. now rewrite (Hnone entry Hin) in Hmem.
Qed.

Lemma journal_from_first_entry_witness :
  derive_journal sample_record = Ok (VStr "Nature").
Proof.
  exact (proj1 (journal_from_first_entry_with_name_key sample_record
                  [[("lang", VStr "en")]; [("name", VStr "Nature")]]
                  (or_intror
                     (ex_intro _ _ (conj eq_refl (or_intror eq_refl)))))).
Defined.

(** *** Records the transform accepts *)

Lemma objects_are_dicts (vs : list value) :
  forallb is_dict vs = true -> exists ds, vs = map VDict ds.
Proof.
  induction vs as [|v vs IH]; intros H.
  - now exists [].
  - simpl in H. apply andb_prop in H as [Hv Hvs].
    destruct v as [| | | | |d]; try discriminate.
    destruct (IH Hvs) as [ds ->]. now exists (d :: ds).
Qed.

Lemma derive_publisher_total (document : dict) :
  exists names, derive_publisher document = Ok names.
Proof.
  unfold derive_publisher.
  destruct (dict_get_default document "source" (VDict []))
    as [| | | | |source]; try (eexists; reflexivity).
  unfold dict_mem. cbn [getitem].
  destruct (dict_get source "publisher") as [info|]; [|eexists; reflexivity].
  cbn [bind]. destruct info; cbn [get bind]; eexists; reflexivity.
Qed.

Lemma format_author_total (author : value) :
  named_author author = true -> exists name, format_author author = Ok name.
Proof.
  destruct author as [| | | | |a]; try discriminate.
  unfold named_author. intros H.
  assert (Hname : exists name,
             dict_get_default a "full_name" (VStr "") = VStr name).
  { unfold dict_get_default.
    destruct (dict_get a "full_name") as [[| | |name| |]|];
      try discriminate; eauto. }
  destruct Hname as [name Hname].
  rewrite (format_author_text a name Hname). eauto.
Qed.

Lemma mapM_total {A B : Type} (f : A -> result B) (xs : list A) :
  (forall x, In x xs -> exists y, f x = Ok y) -> exists ys, mapM f xs = Ok ys.
Proof.
  induction xs as [|x xs IH]; intros H.
  - now exists [].
  - destruct (H x (or_introl eq_refl)) as [y Hy].
    destruct IH as [ys Hys]; [intros; apply H; now right|].
    exists (y :: ys). cbn [mapM]. rewrite Hy. cbn [bind]. now rewrite Hys.
Qed.

Lemma mapM_Forall2 {A B : Type} (f : A -> result B) (xs : list A) :
  forall ys, mapM f xs = Ok ys -> Forall2 (fun x y => f x = Ok y) xs ys.
Proof.
  induction xs as [|x xs IH]; intros ys H; cbn [mapM] in H.
  - injection H as <-. constructor.
  - apply bind_ok in H as (y & Hy & H).
    apply bind_ok in H as (ys' & Hys & H).
    injection H as <-. constructor; auto.
Qed.

Lemma In_firstn {A : Type} (n : nat) (xs : list A) (x : A) :
  In x (firstn n xs) -> In x xs.
Proof.
  revert xs. induction n as [|n IH]; intros [|y xs]; simpl; try tauto.
  intros [-> | H]; auto.
Qed.

Lemma derive_author_total (document : dict) :
  match dict_get document "authors" with
  | None => true
  | Some (VList authors) => forallb named_author authors
  | Some _ => false
  end = true ->
  exists author, derive_author document = Ok author.
Proof.
  unfold derive_author, dict_get_default.
  destruct (dict_get document "authors") as [[| | | |authors|]|];
    try discriminate; intros H; cbn [slice_to bind iter].
  - destruct (mapM_total format_author (firstn 3 authors)) as [names Hnames].
    { intros a Ha. apply format_author_total.
      apply In_firstn in Ha.
      rewrite forallb_forall in H. now apply H. }
    rewrite Hnames. eexists. reflexivity.
  - eexists. reflexivity.
Qed.

Lemma first_title_total (document : dict) (k : string) :
  match dict_get document "titles" with
  | None | Some (VList (VDict _ :: _)) => true
  | Some _ => false
  end = true ->
  exists t, first_title document k = Ok t.
Proof.
  unfold first_title, dict_get_default.
  destruct (dict_get document "titles") as [[| | | |[|[| | | | |t] ts]|]|];
    try discriminate; intros _; eexists; reflexivity.
Qed.

Lemma derive_journal_total (document : dict) :
  match dict_get document "source" with
  | None => true
  | Some (VDict source) =>
      match dict_get source "names" with
      | None => true
      | Some (VList names) => forallb is_dict names
      | Some _ => false
      end
  | Some _ => false
  end = true ->
  exists j, derive_journal document = Ok j.
Proof.
  intros H.
  assert (Hnames : exists names, has_source_names document names).
  { unfold has_source_names.
    destruct (dict_get document "source") as [[| | | | |source]|];
      try discriminate.
    - destruct (dict_get source "names") as [[| | | |names|]|] eqn:Hn;
        try discriminate.
      + destruct (objects_are_dicts names H) as [ds ->].
        exists ds. right. exists source. auto.
      + exists []. right. exists source. auto.
    - exists []. auto. }
  destruct Hnames as [names Hnames].
  rewrite (derive_journal_objects document names Hnames). eauto.
Qed.

Lemma derive_ids_total (document : dict) :
  source_record document = true -> exists ids, derive_ids document = Ok ids.
Proof.
  unfold source_record. intros H.
  assert (Hids : exists entries, has_external_ids document entries).
  { unfold has_external_ids.
    destruct (dict_get document "external_ids") as [[| | | |ids|]|];
      try discriminate.
    - destruct (objects_are_dicts ids H) as [ds ->]. exists ds. auto.
    - exists []. auto. }
  destruct Hids as [entries Hids].
  rewrite (derive_ids_objects document entries Hids). eauto.
Qed.

(** The transform makes a record of every well-formed staged record. *)
Lemma copy_document_total (document : dict) :
  staged_record document = true -> exists nd, copy_document document = Ok nd.
Proof.
  unfold staged_record. intros H.
  apply andb_prop in H as [H Hids].
  apply andb_prop in H as [H Hinfo].
  apply andb_prop in H as [H Hauthors].
  apply andb_prop in H as [Hsource Htitles].
  destruct (derive_journal_total document Hsource) as [j Hj].
  destruct (derive_publisher_total document) as [[p c] Hp].
  destruct (first_title_total document "title" Htitles) as [t Ht].
  destruct (first_title_total document "lang" Htitles) as [l Hl].
  destruct (derive_author_total document Hauthors) as [a Ha].
  destruct (derive_ids_total document Hids) as [[d m] Hd].
  unfold copy_document, bibliographic_info. cbn [getitem].
  rewrite Hj, Hp, Ht, Ha, Hl, Hd.
  destruct (dict_get document "bibliographic_info") as [[| | | | |info]|];
    try discriminate.
  cbn [bind get]. eexists. reflexivity.
Qed.

(** *** Runs of the transform *)

Lemma copy_data_written (original_collection : list dict)
  (documents : list new_document) :
  mapM copy_document original_collection = Ok documents ->
  forall filtered_collection,
    copy_data original_collection filtered_collection
    = Ok (filtered_collection ++ documents)%list.
Proof.
  intros H filtered_collection. unfold copy_data. rewrite H. cbn [bind].
  destruct documents; [now rewrite app_nil_r | reflexivity].
Qed.

Lemma Forall2_same_length {A B : Type} (R : A -> B -> Prop)
  (xs : list A) (ys : list B) :
  Forall2 R xs ys -> List.length ys = List.length xs.
Proof.
  induction 1; simpl; congruence.
Qed.

(** ** Further properties of the ingestion loop *)

Lemma pages_from_seq (a : nat) (k : nat) :
  pages_from (Z.of_nat a) k = map Z.of_nat (seq a k).
Proof.
  revert a. induction k as [|k IH]; intros a; [reflexivity|].
  cbn [pages_from seq map]. f_equal.
  replace (Z.of_nat a + 1) with (Z.of_nat (S a)) by lia. apply IH.
Qed.

Lemma pages_from_one (n : nat) : pages_from 1 n = pages n.
Proof. exact (pages_from_seq 1 n). Qed.

Lemma pages_from_last (page : Z) (k : nat) :
  pages_from page (S k) = (pages_from page k ++ [page + Z.of_nat k])%list.
Proof.
  revert page. induction k as [|k IH]; intros page.
  - cbn. now rewrite Z.add_0_r.
  - change (pages_from page (S (S k)))
      with (page :: pages_from (page + 1) (S k)).
    rewrite IH. cbn [pages_from app]. do 3 f_equal. lia.
Qed.

Lemma any_scholar_false (sources : list value) :
  any_scholar sources = Ok false ->
  existsb (source_is "scholar") sources = false.
Proof.
  induction sources as [|source sources IH]; [reflexivity|].
  cbn [any_scholar existsb]. intros H.
  apply bind_ok in H as (s & Hs & H).
  destruct source as [| | | | |e]; try discriminate.
  cbn [get] in Hs. injection Hs as <-.
  unfold source_is, dict_get_default in *.
  destruct (dict_get e "source") as [[| | |s| |]|]; cbn [eq_str] in H;
    try (now apply IH).
  destruct (String.eqb s "scholar"); [discriminate | now apply IH].
Qed.

(** Whatever the entry is, the loop body either leaves the collection as it
    is or appends the entry, tagged, and then the entry has no [scholar]
    source. *)
Lemma stage_entry_ok (entry : value) (collection collection' : list dict) :
  stage_entry entry collection = Ok collection' ->
  collection' = collection \/
  exists record,
    entry = VDict record /\ has_scholar record = false /\
    collection' = (collection ++ [staged record])%list.
Proof.
  unfold stage_entry. intros H.
  apply bind_ok in H as (ids & Hids & H).
  apply bind_ok in H as (sources & Hsources & H).
  apply bind_ok in H as (found & Hfound & H).
  destruct found; cbn [negb] in H; [left; congruence|].
  destruct entry as [| | | | |record]; try discriminate.
  right. exists record. injection H as <-. repeat split.
  cbn [get] in Hids. injection Hids as <-.
  unfold has_scholar, external_ids_of, dict_get_default in *.
  destruct (dict_get record "external_ids") as [[| | | |l|]|];
    try reflexivity.
  cbn [iter] in Hsources. injection Hsources as <-.
  now apply any_scholar_false.
Qed.

Lemma ingested_staged (record : dict) :
  has_scholar record = false -> ingested (staged record).
Proof.
  intros H. split.
  - apply dict_get_set_same.
  - now rewrite has_scholar_staged.
Qed.

Lemma stage_entries_grows (entries : list value) :
  forall collection r collection',
    stage_entries entries collection = (r, collection') ->
    exists added,
      collection' = (collection ++ added)%list /\ Forall ingested added.
Proof.
  induction entries as [|entry entries IH]; intros collection r collection' H;
    cbn [stage_entries] in H.
  - injection H as _ <-. exists []. now rewrite app_nil_r.
  - destruct (stage_entry entry collection) as [c|e] eqn:Hentry.
    + destruct (IH _ _ _ H) as (added & -> & Hadded).
      apply stage_entry_ok in Hentry
        as [-> | (record & _ & Hno & ->)].
      * now exists added.
      * exists (staged record :: added). rewrite <- app_assoc.
        split; [reflexivity|]. constructor; [|assumption].
        now apply ingested_staged.
    + injection H as _ <-. exists []. now rewrite app_nil_r.
Qed.

(** However the loop ends, and whatever the server answers, the staging
    collection has only grown, by ingested records, and the pages asked for
    are consecutive. *)
Lemma fetch_loop_grows (server : Z -> response) (max_results : Z)
  (fuel : nat) :
  forall page w r w',
    fetch_loop server max_results fuel page w = Some (r, w') ->
    exists added k,
      (k < fuel)%nat /\
      original_collection w' = (original_collection w ++ added)%list /\
      Forall ingested added /\
      requests w' = (requests w ++ pages_from page (S k))%list.
Proof.
  induction fuel as [|fuel IH]; intros page w r w' H; [discriminate|].
  cbn [fetch_loop] in H.
  destruct (server page) as [|aff].
  { injection H as <- <-. exists [], 0%nat. cbn. rewrite app_nil_r.
    repeat split; [lia | constructor]. }
  destruct (getitem aff "total_results") as [t|e].
  2:{ injection H as <- <-. exists [], 0%nat. cbn. rewrite app_nil_r.
      repeat split; [lia | constructor]. }
  destruct (bind (getitem aff "data") _) as [entries|e].
  2:{ injection H as <- <-. exists [], 0%nat. cbn. rewrite app_nil_r.
      repeat split; [lia | constructor]. }
  destruct (stage_entries entries (original_collection w))
    as [r0 collection] eqn:Hstage.
  destruct (stage_entries_grows _ _ _ _ Hstage) as (added & -> & Hadded).
  destruct r0 as [u|e].
  2:{ injection H as <- <-. exists added, 0%nat. cbn.
      repeat split; [lia | assumption]. }
  cbn [bind] in H.
  destruct (ge_int (page * max_results) t) as [[|]|e].
  - injection H as <- <-. exists added, 0%nat. cbn.
    repeat split; [lia | assumption].
  - apply IH in H as (added' & k & Hk & Hcoll & Hadded' & Hreq).
    cbn [original_collection requests] in Hcoll, Hreq.
    exists (added ++ added')%list, (S k). repeat split.
    + lia.
    + now rewrite Hcoll, app_assoc.
    + now apply Forall_app.
    + rewrite Hreq, <- app_assoc. reflexivity.
  - injection H as <- <-. exists added, 0%nat. cbn.
    repeat split; [lia | assumption].
Qed.

(** X1. The ingestion never removes or rewrites what the staging collection
    held, and asks for the pages [1 .. n] in order, one request per
    iteration: this holds however the run ends (last page, request error or
    exception) and whatever the server answers. *)
Theorem fetch_data_only_appends_and_asks_consecutive_pages
  (server : Z -> response) (max_results : Z) (fuel : nat)
  (collection : list dict) (r : result unit) (w : world) :
  fetch_data server max_results fuel collection = Some (r, w) ->
  exists added n,
    (1 <= n <= fuel)%nat /\
    original_collection w = (collection ++ added)%list /\
    requests w = pages n.
Proof.
  intros H. apply fetch_loop_grows in H as (added & k & Hk & Hcoll & _ & Hreq).
  exists added, (S k). cbn [original_collection requests app] in Hcoll, Hreq.
  rewrite pages_from_one in Hreq. repeat split; try assumption; lia.
Qed.

Lemma fetch_data_only_appends_witness :
  exists added n,
    (1 <= n <= 3)%nat /\
    original_collection one_page_world = ([] ++ added)%list /\
    requests one_page_world = pages n.
Proof.
  apply (fetch_data_only_appends_and_asks_consecutive_pages
           (fun _ => Body (one_page 1)) default_max_results 3 []
           (Ok tt) one_page_world).
  reflexivity.
Defined.

(** X2. Every record that a run of the ingestion adds to the staging
    collection has [keep_abstract] false and no [external_ids] entry of
    source [scholar], however the run ends and whatever the server
    answers. *)
Theorem fetch_data_adds_only_ingested_records
  (server : Z -> response) (max_results : Z) (fuel : nat)
  (collection : list dict) (r : result unit) (w : world) :
  fetch_data server max_results fuel collection = Some (r, w) ->
  exists added,
    original_collection w = (collection ++ added)%list /\
    Forall ingested added.
Proof.
  intros H. apply fetch_loop_grows in H as (added & k & _ & Hcoll & Hadded & _).
  now exists added.
Qed.

Lemma fetch_data_adds_only_ingested_witness :
  exists added,
    original_collection one_page_world = ([] ++ added)%list /\
    Forall ingested added.
Proof.
  apply (fetch_data_adds_only_ingested_records
           (fun _ => Body (one_page 1)) default_max_results 3 []
           (Ok tt) one_page_world).
  reflexivity.
Defined.

(** *** Runs over several pages *)

Section Pages.

Variable server : Z -> response.
Variable max_results : Z.
Variable total : Z -> Z.
Variable data : Z -> list dict.

(** [k] well-formed pages from [page], none of them the last. *)
Lemma fetch_loop_through (k : nat) :
  forall (page : Z) (w : world) (fuel : nat),
    (forall q, page <= q < page + Z.of_nat k ->
       well_formed_page server q (total q) (data q) /\
       q * max_results < total q) ->
    fetch_loop server max_results (k + fuel) page w =
    fetch_loop server max_results fuel (page + Z.of_nat k)
      {| original_collection :=
           (original_collection w
            ++ collected data (pages_from page k))%list;
         requests := (requests w ++ pages_from page k)%list |}.
Proof.
  induction k as [|k IH]; intros page w fuel Hpages.
  - cbn [Nat.add pages_from collected flat_map]. rewrite !app_nil_r.
    rewrite Z.add_0_r. now destruct w.
  - destruct (Hpages page) as [(aff & Hbody & Htotal & Hdata & Hrec) Hmore];
      [lia|].
    cbn [Nat.add].
    rewrite (fetch_loop_page server max_results (k + fuel) page w aff
               (data page) (total page) Hbody Htotal Hdata Hrec).
    cbv zeta.
    replace (page * max_results >=? total page) with false
      by (symmetry; rewrite Z.geb_leb; apply Z.leb_gt; exact Hmore).
    rewrite IH by (intros q Hq; apply Hpages; lia).
    cbn [original_collection requests pages_from collected flat_map].
    rewrite <- !app_assoc.
    replace (page + 1 + Z.of_nat k) with (page + Z.of_nat (S k)) by lia.
    reflexivity.
Qed.

End Pages.

Lemma collected_last (data : Z -> list dict) (n : nat) :
  collected data (pages (S n))
  = (collected data (pages n) ++ staged_of (data (Z.of_nat (S n))))%list.
Proof.
  rewrite <- !pages_from_one, pages_from_last.
  unfold collected. rewrite flat_map_app. cbn [flat_map].
  rewrite app_nil_r. do 3 f_equal. lia.
Qed.

Lemma fetch_data_through_last_page
  (server : Z -> response) (max_results : Z) (total : Z -> Z)
  (data : Z -> list dict) (n fuel : nat) (collection : list dict) :
  (forall q, 1 <= q < Z.of_nat (S n) ->
     well_formed_page server q (total q) (data q) /\
     q * max_results < total q) ->
  well_formed_page server (Z.of_nat (S n)) (total (Z.of_nat (S n)))
    (data (Z.of_nat (S n))) ->
  total (Z.of_nat (S n)) <= Z.of_nat (S n) * max_results ->
  (S n <= fuel)%nat ->
  fetch_data server max_results fuel collection =
  Some (Ok tt,
        {| original_collection :=
             (collection ++ collected data (pages (S n)))%list;
           requests := pages (S n) |}).
Proof.
  intros Hpages (aff & Hbody & Htotal & Hdata & Hrec) Hlast Hfuel.
  unfold fetch_data.
  replace fuel with (n + S (fuel - S n))%nat by lia.
  rewrite (fetch_loop_through server max_results total data n)
    by (intros q Hq; apply Hpages; lia).
  replace (1 + Z.of_nat n) with (Z.of_nat (S n)) by lia.
  rewrite (fetch_loop_page server max_results _ _ _ aff _ _
             Hbody Htotal Hdata Hrec).
  cbv zeta.
  replace (Z.of_nat (S n) * max_results >=? total (Z.of_nat (S n)))
    with true by (symmetry; apply Z.geb_le; lia).
  cbn [original_collection requests app].
  rewrite collected_last, <- app_assoc.
  rewrite <- (pages_from_one (S n)), pages_from_last, !pages_from_one.
  replace (1 + Z.of_nat n) with (Z.of_nat (S n)) by lia.
  reflexivity.
Qed.

(** X3. The run ends at the first page [n + 1] whose offset reaches the
    total that this page reports, the totals being free to change from page
    to page; the staging collection then holds, after what it held, the
    records without [scholar] of the pages [1 .. n + 1], page after page
    and in the order of each page. *)
Theorem fetch_data_collects_every_page_up_to_the_last
  (server : Z -> response) (max_results : Z) (total : Z -> Z)
  (data : Z -> list dict) (n fuel : nat) (collection : list dict) :
  (forall q, 1 <= q < Z.of_nat (S n) ->
     well_formed_page server q (total q) (data q) /\
     q * max_results < total q) ->
  well_formed_page server (Z.of_nat (S n)) (total (Z.of_nat (S n)))
    (data (Z.of_nat (S n))) ->
  total (Z.of_nat (S n)) <= Z.of_nat (S n) * max_results ->
  (S n <= fuel)%nat ->
  fetch_data server max_results fuel collection =
  Some (Ok tt,
        {| original_collection :=
             (collection ++ collected data (pages (S n)))%list;
           requests := pages (S n) |}).
Proof.
  apply fetch_data_through_last_page.
Qed.

Lemma fetch_data_collects_witness :
  fetch_data two_pages default_max_results 5 [] =
  Some (Ok tt,
        {| original_collection :=
             ([] ++ collected two_pages_data (pages 2))%list;
           requests := pages 2 |}).
Proof.
  apply (fetch_data_collects_every_page_up_to_the_last
           two_pages default_max_results (fun _ => 150) two_pages_data 1 5 []).
  - intros q Hq. split; [|unfold default_max_results; lia].
    eexists. repeat split.
  - eexists. repeat split.
  - discriminate.
  - lia.
Defined.

(** X4. A request error on page [n + 1] ends the run there, without an
    exception; the records staged from the pages [1 .. n] stay in the
    staging collection and the failed page was asked for once. *)
Theorem fetch_data_request_error_keeps_earlier_pages
  (server : Z -> response) (max_results : Z) (total : Z -> Z)
  (data : Z -> list dict) (n fuel : nat) (collection : list dict) :
  (forall q, 1 <= q < Z.of_nat (S n) ->
     well_formed_page server q (total q) (data q) /\
     q * max_results < total q) ->
  server (Z.of_nat (S n)) = RequestException ->
  (S n <= fuel)%nat ->
  fetch_data server max_results fuel collection =
  Some (Ok tt,
        {| original_collection := (collection ++ collected data (pages n))%list;
           requests := pages (S n) |}).
Proof.
  intros Hpages Herror Hfuel.
  unfold fetch_data.
  replace fuel with (n + S (fuel - S n))%nat by lia.
  rewrite (fetch_loop_through server max_results total data n)
    by (intros q Hq; apply Hpages; lia).
  replace (1 + Z.of_nat n) with (Z.of_nat (S n)) by lia.
  cbn [fetch_loop]. rewrite Herror.
  cbn [original_collection requests app].
  rewrite <- (pages_from_one (S n)), pages_from_last, !pages_from_one.
  replace (1 + Z.of_nat n) with (Z.of_nat (S n)) by lia.
  reflexivity.
Qed.

Lemma fetch_data_request_error_witness :
  fetch_data (fun q => if q =? 2 then RequestException else two_pages q)
    default_max_results 5 [] =
  Some (Ok tt,
        {| original_collection :=
             ([] ++ collected two_pages_data (pages 1))%list;
           requests := pages 2 |}).
Proof.
  apply (fetch_data_request_error_keeps_earlier_pages
           (fun q => if q =? 2 then RequestException else two_pages q)
           default_max_results (fun _ => 150) two_pages_data 1 5 []).
  - intros q Hq. assert (q = 1) as -> by lia.
    split; [|reflexivity]. eexists. repeat split.
  - reflexivity.
  - lia.
Defined.

(** X5. A body without [total_results] on page [n + 1] is not handled: the
    run ends with [KeyError], before any record of that page is looked at,
    and the staging collection keeps what the pages [1 .. n] added. *)
Theorem fetch_data_missing_total_results_raises
  (server : Z -> response) (max_results : Z) (total : Z -> Z)
  (data : Z -> list dict) (n fuel : nat) (collection : list dict)
  (aff : dict) :
  (forall q, 1 <= q < Z.of_nat (S n) ->
     well_formed_page server q (total q) (data q) /\
     q * max_results < total q) ->
  server (Z.of_nat (S n)) = Body (VDict aff) ->
  dict_get aff "total_results" = None ->
  (S n <= fuel)%nat ->
  fetch_data server max_results fuel collection =
  Some (Raise KeyError,
        {| original_collection := (collection ++ collected data (pages n))%list;
           requests := pages (S n) |}).
Proof.
  intros Hpages Hbody Hnone Hfuel.
  unfold fetch_data.
  replace fuel with (n + S (fuel - S n))%nat by lia.
  rewrite (fetch_loop_through server max_results total data n)
    by (intros q Hq; apply Hpages; lia).
  replace (1 + Z.of_nat n) with (Z.of_nat (S n)) by lia.
  cbn [fetch_loop]. rewrite Hbody. cbn [getitem]. rewrite Hnone.
  cbn [original_collection requests app].
  rewrite <- (pages_from_one (S n)), pages_from_last, !pages_from_one.
  replace (1 + Z.of_nat n) with (Z.of_nat (S n)) by lia.
  reflexivity.
Qed.

Lemma fetch_data_missing_total_results_witness :
  fetch_data
    (fun q => if q =? 2
              then Body (VDict [("data", VList [VDict []])])
              else two_pages q)
    default_max_results 5 [] =
  Some (Raise KeyError,
        {| original_collection :=
             ([] ++ collected two_pages_data (pages 1))%list;
           requests := pages 2 |}).
Proof.
  apply (fetch_data_missing_total_results_raises
           (fun q => if q =? 2
                     then Body (VDict [("data", VList [VDict []])])
                     else two_pages q)
           default_max_results (fun _ => 150) two_pages_data 1 5 []
           [("data", VList [VDict []])]).
  - intros q Hq. assert (q = 1) as -> by lia.
    split; [|reflexivity]. eexists. repeat split.
  - reflexivity.
  - reflexivity.
  - lia.
Defined.

(** X6. With a page size that is not positive the loop has no last page:
    on well-formed pages that report a positive total, no number of
    iterations ends the run. *)
Theorem fetch_data_never_ends_without_positive_page_size
  (server : Z -> response) (max_results : Z) (total : Z -> Z)
  (data : Z -> list dict) (collection : list dict) :
  max_results <= 0 ->
  (forall q, 1 <= q ->
     well_formed_page server q (total q) (data q) /\ 0 < total q) ->
  forall fuel, fetch_data server max_results fuel collection = None.
Proof.
  intros Hsize Hpages fuel. unfold fetch_data.
  replace fuel with (fuel + 0)%nat by lia.
  rewrite (fetch_loop_through server max_results total data fuel).
  - reflexivity.
  - intros q Hq. destruct (Hpages q) as [Hwf Hpos]; [lia|].
    split; [assumption | nia].
Qed.

Lemma fetch_data_never_ends_witness :
  fetch_data two_pages 0 50 [] = None.
Proof.
  apply (fetch_data_never_ends_without_positive_page_size
           two_pages 0 (fun _ => 150) two_pages_data []).
  - lia.
  - intros q Hq. split; [|lia]. eexists. repeat split.
Defined.

Lemma first_page_reaching_total (max_results : Z) (total : Z -> Z) (N : nat) :
  (forall q, 1 <= q <= Z.of_nat N -> q * max_results < total q) \/
  exists n, (S n <= N)%nat /\
            total (Z.of_nat (S n)) <= Z.of_nat (S n) * max_results /\
            forall q, 1 <= q < Z.of_nat (S n) -> q * max_results < total q.
Proof.
  induction N as [|N [IH | (n & Hn & Hlast & Hbefore)]].
  - left. intros q Hq. lia.
  - destruct (Z_lt_le_dec (Z.of_nat (S N) * max_results)
                          (total (Z.of_nat (S N)))) as [Hlt | Hle].
    + left. intros q Hq.
      destruct (Z.eq_dec q (Z.of_nat (S N))) as [-> | Hne];
        [assumption | apply IH; lia].
    + right. exists N. repeat split; [lia | assumption |].
      intros q Hq. apply IH. lia.
  - right. exists n. repeat split; [lia | assumption | assumption].
Qed.

(** X7. The run ends even when the reported total changes from page to
    page, as long as the totals stay under a bound [B] and the page size is
    positive: it stops within [max 1 (ceil (B / max_results))] pages, at
    the first page whose offset reaches the total reported by that page,
    having staged the records of all the pages asked for. *)
Theorem fetch_data_terminates_under_bounded_totals
  (server : Z -> response) (max_results : Z) (total : Z -> Z)
  (data : Z -> list dict) (B : Z) (collection : list dict) :
  0 < max_results ->
  (forall q, 1 <= q ->
     well_formed_page server q (total q) (data q) /\ total q <= B) ->
  exists n,
    Z.of_nat (S n) <= Z.max 1 ((B + max_results - 1) / max_results) /\
    total (Z.of_nat (S n)) <= Z.of_nat (S n) * max_results /\
    (forall q, 1 <= q < Z.of_nat (S n) -> q * max_results < total q) /\
    forall fuel, (S n <= fuel)%nat ->
      fetch_data server max_results fuel collection =
      Some (Ok tt,
            {| original_collection :=
                 (collection ++ collected data (pages (S n)))%list;
               requests := pages (S n) |}).
Proof.
  intros Hsize Hpages.
  set (c := (B + max_results - 1) / max_results).
  assert (Hc : B + max_results - 1 < (c + 1) * max_results).
  { unfold c. rewrite Z.mul_comm.
    apply (Z.mul_succ_div_gt (B + max_results - 1) max_results). lia. }
  destruct (first_page_reaching_total max_results total
              (Z.to_nat (Z.max 1 c)))
    as [Hnone | (n & Hn & Hlast & Hbefore)].
  - exfalso.
    destruct (Hpages (Z.max 1 c)) as [_ Hbound]; [lia|].
    specialize (Hnone (Z.max 1 c)). nia.
  - exists n. repeat split; try assumption; [lia|].
    intros fuel Hfuel.
    apply (fetch_data_through_last_page
             server max_results total data n fuel collection);
      try assumption.
    + intros q Hq. split; [apply Hpages; lia | now apply Hbefore].
    + apply Hpages. lia.
Qed.

Lemma fetch_data_terminates_under_bounded_totals_witness :
  exists n,
    Z.of_nat (S n)
    <= Z.max 1 ((150 + default_max_results - 1) / default_max_results) /\
    150 <= Z.of_nat (S n) * default_max_results /\
    (forall q, 1 <= q < Z.of_nat (S n) -> q * default_max_results < 150) /\
    forall fuel, (S n <= fuel)%nat ->
      fetch_data two_pages default_max_results fuel [] =
      Some (Ok tt,
            {| original_collection :=
                 ([] ++ collected two_pages_data (pages (S n)))%list;
               requests := pages (S n) |}).
Proof.
  apply (fetch_data_terminates_under_bounded_totals
           two_pages default_max_results (fun _ => 150) two_pages_data 150 []).
  - reflexivity.
  - intros q Hq. split; [|lia]. eexists. repeat split.
Defined.

(** *** Exceptions inside a page *)

Lemma stage_entries_app (records : list dict) (entries : list value) :
  forallb source_record records = true ->
  forall collection,
    stage_entries (map VDict records ++ entries)%list collection
    = stage_entries entries (collection ++ staged_of records)%list.
Proof.
  unfold staged_of.
  induction records as [|r records IH]; intros H collection.
  - cbn. now rewrite app_nil_r.
  - simpl in H. apply andb_prop in H as [Hr Hrs].
    cbn [map app stage_entries filter].
    rewrite (stage_entry_source_record r collection Hr).
    destruct (has_scholar r); cbn [negb].
    + now apply IH.
    + rewrite (IH Hrs). cbn [map]. now rewrite <- app_assoc.
Qed.

(** X8. The ingestion is not transactional inside a page either: when an
    entry of page [n + 1] makes the loop body raise [e], the run ends with
    [e], and the staging collection keeps the records staged from the pages
    [1 .. n] and from the entries of page [n + 1] that come before the
    failing one; the entries after it are not looked at. *)
Theorem fetch_data_keeps_records_staged_before_an_exception
  (server : Z -> response) (max_results : Z) (total : Z -> Z)
  (data : Z -> list dict) (n fuel : nat) (collection : list dict)
  (aff : dict) (t : value) (records : list dict)
  (bad : value) (rest : list value) (e : exn) :
  (forall q, 1 <= q < Z.of_nat (S n) ->
     well_formed_page server q (total q) (data q) /\
     q * max_results < total q) ->
  server (Z.of_nat (S n)) = Body (VDict aff) ->
  dict_get aff "total_results" = Some t ->
  dict_get aff "data" = Some (VList (map VDict records ++ bad :: rest)) ->
  forallb source_record records = true ->
  (forall c, stage_entry bad c = Raise e) ->
  (S n <= fuel)%nat ->
  fetch_data server max_results fuel collection =
  Some (Raise e,
        {| original_collection :=
             (collection ++ collected data (pages n)
              ++ staged_of records)%list;
           requests := pages (S n) |}).
Proof.
  intros Hpages Hbody Htotal Hdata Hrec Hbad Hfuel.
  unfold fetch_data.
  replace fuel with (n + S (fuel - S n))%nat by lia.
  rewrite (fetch_loop_through server max_results total data n)
    by (intros q Hq; apply Hpages; lia).
  replace (1 + Z.of_nat n) with (Z.of_nat (S n)) by lia.
  cbn [fetch_loop]. rewrite Hbody. cbn [getitem]. rewrite Htotal, Hdata.
  cbn [bind iter original_collection requests].
  rewrite (stage_entries_app records (bad :: rest) Hrec).
  cbn [stage_entries]. rewrite Hbad.
  cbn [app]. rewrite <- app_assoc.
  rewrite <- (pages_from_one (S n)), pages_from_last, !pages_from_one.
  replace (1 + Z.of_nat n) with (Z.of_nat (S n)) by lia.
  reflexivity.
Qed.

Lemma fetch_data_keeps_records_witness :
  fetch_data
    (fun q => if q =? 2
              then Body (VDict [("total_results", VInt 150);
                                ("data",
                                 VList (map VDict [[("abstract", VStr "A")]]
                                        ++ [VInt 5; VDict []]))])
              else two_pages q)
    default_max_results 5 [] =
  Some (Raise AttributeError,
        {| original_collection :=
             ([] ++ collected two_pages_data (pages 1)
              ++ staged_of [[("abstract", VStr "A")]])%list;
           requests := pages 2 |}).
Proof.
  apply (fetch_data_keeps_records_staged_before_an_exception
           (fun q => if q =? 2
                     then Body (VDict [("total_results", VInt 150);
                                       ("data",
                                        VList (map VDict
                                                 [[("abstract", VStr "A")]]
                                               ++ [VInt 5; VDict []]))])
                     else two_pages q)
           default_max_results (fun _ => 150) two_pages_data 1 5 []
           [("total_results", VInt 150);
            ("data", VList (map VDict [[("abstract", VStr "A")]]
                            ++ [VInt 5; VDict []]))]
           (VInt 150) [[("abstract", VStr "A")]] (VInt 5) [VDict []]
           AttributeError).
  - intros q Hq. assert (q = 1) as -> by lia.
    split; [|reflexivity]. eexists. repeat split.
  - reflexivity.
  - reflexivity.
  - reflexivity.
  - reflexivity.
  - reflexivity.
  - lia.
Defined.

Lemma any_scholar_found (before : list dict) (hit : dict) (rest : list value) :
  source_is "scholar" (VDict hit) = true ->
  any_scholar (map VDict before ++ VDict hit :: rest)%list = Ok true.
Proof.
  intros Hhit.
  assert (Hone : forall e tail,
             any_scholar (VDict e :: tail)
             = if source_is "scholar" (VDict e) then Ok true
               else any_scholar tail).
  { intros e tail. cbn [any_scholar get bind].
    unfold source_is, dict_get_default.
    destruct (dict_get e "source") as [[| | |s| |]|]; reflexivity. }
  induction before as [|e before IH]; cbn [map app]; rewrite Hone.
  - now rewrite Hhit.
  - now destruct (source_is "scholar" (VDict e)).
Qed.

(** X9. The search for a [scholar] source stops at the first hit: a record
    whose [external_ids] has a [scholar] entry after objects only is left
    out of the staging collection without an exception, whatever follows
    that entry in [external_ids], well-formed or not. *)
Theorem stage_entry_stops_at_first_scholar
  (record : dict) (before : list dict) (hit : dict) (rest : list value)
  (collection : list dict) :
  dict_get record "external_ids"
  = Some (VList (map VDict before ++ VDict hit :: rest)) ->
  source_is "scholar" (VDict hit) = true ->
  stage_entry (VDict record) collection = Ok collection /\
  forall entries,
    stage_entries (VDict record :: entries) collection
    = stage_entries entries collection.
Proof.
  intros Hids Hhit.
  assert (Hentry : forall c, stage_entry (VDict record) c = Ok c).
  { intros c. unfold stage_entry. cbn [get bind].
    unfold dict_get_default. rewrite Hids. cbn [iter bind].
    now rewrite (any_scholar_found before hit rest Hhit). }
  split; [apply Hentry|].
  intros entries. cbn [stage_entries]. now rewrite Hentry.
Qed.

Lemma stage_entry_stops_at_first_scholar_witness :
  stage_entry
    (VDict [("external_ids",
             VList (map VDict [[("source", VStr "doi")]]
                    ++ [VDict [("source", VStr "scholar")]; VInt 5]))]) []
  = Ok [].
Proof.
  exact (proj1 (stage_entry_stops_at_first_scholar
                  [("external_ids",
                    VList (map VDict [[("source", VStr "doi")]]
                           ++ [VDict [("source", VStr "scholar")]; VInt 5]))]
                  [[("source", VStr "doi")]] [("source", VStr "scholar")]
                  [VInt 5] [] eq_refl eq_refl)).
Defined.

(** ** Further properties of the transform *)

(** *** Publisher, title, language, year, volume and issue *)

Lemma derive_publisher_spec (document : dict) :
  derive_publisher document = Ok (spec_publisher document).
Proof.
  unfold derive_publisher, spec_publisher, dict_get_default, dict_mem.
  destruct (dict_get document "source") as [[| | | | |source]|];
    try reflexivity.
  cbn [getitem].
  destruct (dict_get source "publisher") as [info|]; [|reflexivity].
  cbn [bind]. destruct info; reflexivity.
Qed.

(** X10. The publisher and the country never make a record fail: they are
    [source.publisher.name] and [source.publisher.country_code] (the empty
    string for an absent one) when [source.publisher] is an object, and two
    empty strings when [source] or [publisher] is absent or [publisher] is
    anything but an object. *)
Theorem publisher_and_country_never_raise (document : dict) :
  derive_publisher document = Ok (spec_publisher document) /\
  forall nd, copy_document document = Ok nd ->
             publisher nd = fst (spec_publisher document) /\
             country nd = snd (spec_publisher document).
Proof.
  pose proof (derive_publisher_spec document) as Hspec.
  split; [exact Hspec|].
  intros nd H. apply copy_document_ok in H as (_ & _ & Hp & _).
  rewrite Hspec in Hp. injection Hp as Hp. rewrite Hp. now split.
Qed.

(** X11. The title and the language are the [title] and the [lang] of the
    first element of [titles] and of no other, the empty string standing
    for an absent one; both are empty when [titles] is absent. *)
Theorem title_and_language_from_first_title
  (document t : dict) (nd : new_document) :
  has_first_title document t ->
  copy_document document = Ok nd ->
  title nd = dict_get_default t "title" (VStr "") /\
  language nd = dict_get_default t "lang" (VStr "").
Proof.
  intros Htitles H.
  apply copy_document_ok in H
    as (_ & _ & _ & Htitle & _ & _ & _ & _ & _ & Hlang & _).
  unfold first_title, dict_get_default in Htitle, Hlang.
  destruct Htitles as [[Hnone ->] | [rest Hsome]].
  - rewrite Hnone in Htitle, Hlang. cbn in Htitle, Hlang.
    injection Htitle as <-. injection Hlang as <-. now split.
  - rewrite Hsome in Htitle, Hlang. cbn [first bind get] in Htitle, Hlang.
    injection Htitle as <-. injection Hlang as <-. now split.
Qed.

Lemma title_and_language_witness :
  title sample_normalized
  = dict_get_default [("title", VStr "On pages"); ("lang", VStr "en")]
      "title" (VStr "") /\
  language sample_normalized
  = dict_get_default [("title", VStr "On pages"); ("lang", VStr "en")]
      "lang" (VStr "").
Proof.
  apply (title_and_language_from_first_title sample_record
           [("title", VStr "On pages"); ("lang", VStr "en")]
           sample_normalized).
  - right. exists []. reflexivity.
  - reflexivity.
Defined.

(** X12. The year, the volume and the issue are copied as they are, with
    the type they have: [year_published] of the record, [volume] and
    [issue] of its [bibliographic_info], the empty string standing for an
    absent one. *)
Theorem year_volume_issue_verbatim
  (document info : dict) (nd : new_document) :
  dict_get document "bibliographic_info" = Some (VDict info) ->
  copy_document document = Ok nd ->
  year nd = dict_get_default document "year_published" (VStr "") /\
  volume nd = dict_get_default info "volume" (VStr "") /\
  issue nd = dict_get_default info "issue" (VStr "").
Proof.
  intros Hinfo H.
  apply copy_document_ok in H
    as (_ & _ & _ & _ & _ & Hyear & Hvolume & Hissue & _).
  unfold bibliographic_info in Hvolume, Hissue.
  cbn [getitem] in Hvolume, Hissue. rewrite Hinfo in Hvolume, Hissue.
  cbn [bind get] in Hvolume, Hissue.
  injection Hvolume as <-. injection Hissue as <-. now repeat split.
Qed.

Lemma year_volume_issue_witness :
  year sample_normalized
  = dict_get_default sample_record "year_published" (VStr "") /\
  volume sample_normalized
  = dict_get_default
      [("volume", VStr "7"); ("issue", VStr "2");
       ("start_page", VStr "10"); ("end_page", VStr "20")]
      "volume" (VStr "") /\
  issue sample_normalized
  = dict_get_default
      [("volume", VStr "7"); ("issue", VStr "2");
       ("start_page", VStr "10"); ("end_page", VStr "20")]
      "issue" (VStr "").
Proof.
  apply (year_volume_issue_verbatim sample_record
           [("volume", VStr "7"); ("issue", VStr "2");
            ("start_page", VStr "10"); ("end_page", VStr "20")]
           sample_normalized); reflexivity.
Defined.

(** *** What a record must have *)

(** X13. A record is normalised only if [bibliographic_info] is present
    and is an object, [source] is absent or an object, [titles] is not the
    empty sequence, and none of [titles], [authors] and [external_ids] is
    null: the defaults cover an absent key only, and the [try] block covers
    the publisher only. *)
Theorem copy_document_requires_structure
  (document : dict) (nd : new_document) :
  copy_document document = Ok nd ->
  (exists info, dict_get document "bibliographic_info" = Some (VDict info)) /\
  (forall v, dict_get document "source" = Some v -> is_dict v = true) /\
  dict_get document "titles" <> Some (VList []) /\
  dict_get document "titles" <> Some VNone /\
  dict_get document "authors" <> Some VNone /\
  dict_get document "external_ids" <> Some VNone.
Proof.
  intros H.
  apply copy_document_ok in H
    as (_ & Hjournal & _ & Htitle & Hauthor & _ & Hvolume & _ & _ & _ & Hids).
  repeat split.
  - unfold bibliographic_info in Hvolume. cbn [getitem] in Hvolume.
    destruct (dict_get document "bibliographic_info")
      as [[| | | | |info]|]; try discriminate.
    now exists info.
  - intros v Hv. unfold derive_journal, dict_get_default in Hjournal.
    rewrite Hv in Hjournal. now destruct v.
  - intros Hempty. unfold first_title, dict_get_default in Htitle.
    rewrite Hempty in Htitle. discriminate.
  - intros Hnull. unfold first_title, dict_get_default in Htitle.
    rewrite Hnull in Htitle. discriminate.
  - intros Hnull. unfold derive_author, dict_get_default in Hauthor.
    rewrite Hnull in Hauthor. discriminate.
  - intros Hnull. unfold derive_ids, dict_mem in Hids. cbn [getitem] in Hids.
    rewrite Hnull in Hids. discriminate.
Qed.

Lemma copy_document_requires_structure_witness :
  (exists info,
     dict_get sample_record "bibliographic_info" = Some (VDict info)) /\
  (forall v, dict_get sample_record "source" = Some v -> is_dict v = true) /\
  dict_get sample_record "titles" <> Some (VList []) /\
  dict_get sample_record "titles" <> Some VNone /\
  dict_get sample_record "authors" <> Some VNone /\
  dict_get sample_record "external_ids" <> Some VNone.
Proof.
  apply (copy_document_requires_structure sample_record sample_normalized).
  reflexivity.
Defined.

(** *** What the derivations do not look at *)

(** X14. The author depends on the first three entries of [authors] only:
    two records whose [authors] agree on their first three entries get the
    same author, or fail alike, so that an entry after the third, malformed
    or not, is never looked at. *)
Theorem derive_author_reads_first_three_only
  (document document' : dict) (authors authors' : list value) :
  dict_get document "authors" = Some (VList authors) ->
  dict_get document' "authors" = Some (VList authors') ->
  firstn 3 authors = firstn 3 authors' ->
  derive_author document = derive_author document'.
Proof.
  intros H H' Hsame. unfold derive_author, dict_get_default.
  rewrite H, H'. cbn [slice_to bind]. now rewrite Hsame.
Qed.

Lemma derive_author_reads_first_three_witness :
  derive_author
    [("authors", VList [VDict [("full_name", VStr "Jane Ann Doe")];
                        VDict [("full_name", VStr "John Smith")];
                        VDict [("full_name", VStr "Ann Lee")];
                        VInt 5])]
  = derive_author
      [("authors", VList [VDict [("full_name", VStr "Jane Ann Doe")];
                          VDict [("full_name", VStr "John Smith")];
                          VDict [("full_name", VStr "Ann Lee")]])].
Proof.
  apply (derive_author_reads_first_three_only _ _
           [VDict [("full_name", VStr "Jane Ann Doe")];
            VDict [("full_name", VStr "John Smith")];
            VDict [("full_name", VStr "Ann Lee")];
            VInt 5]
           [VDict [("full_name", VStr "Jane Ann Doe")];
            VDict [("full_name", VStr "John Smith")];
            VDict [("full_name", VStr "Ann Lee")]]); reflexivity.
Defined.

(** X15. An author whose [full_name] is absent or falsy (null, zero, an
    empty text or sequence) counts as the empty name; one whose [full_name]
    is truthy and is not a text makes the record fail with
    [AttributeError]. *)
Theorem format_author_without_a_text_name (a : dict) (full_name : value) :
  dict_get_default a "full_name" (VStr "") = full_name ->
  (truthy full_name = false -> format_author (VDict a) = Ok "") /\
  (truthy full_name = true -> (forall s, full_name <> VStr s) ->
   format_author (VDict a) = Raise AttributeError).
Proof.
  intros Hname. unfold format_author. cbn [get bind]. rewrite Hname.
  split.
  - intros ->. reflexivity.
  - intros -> Hnot. destruct full_name; try reflexivity.
    now destruct (Hnot s).
Qed.

Lemma format_author_without_a_text_name_witness :
  (truthy VNone = false ->
   format_author (VDict [("full_name", VNone)]) = Ok "") /\
  (truthy VNone = true -> (forall s, VNone <> VStr s) ->
   format_author (VDict [("full_name", VNone)]) = Raise AttributeError).
Proof.
  apply (format_author_without_a_text_name [("full_name", VNone)] VNone).
  reflexivity.
Defined.

Lemma next_name_found (before : list dict) (hit : dict) (rest : list value) :
  (forall e, In e before -> dict_mem e "name" = false) ->
  dict_mem hit "name" = true ->
  next_name (map VDict before ++ VDict hit :: rest)%list
  = Ok (dict_get_default hit "name" (VStr "")).
Proof.
  intros Hbefore Hhit.
  induction before as [|e before IH]; cbn [map app next_name contains bind].
  - now rewrite Hhit.
  - rewrite (Hbefore e (or_introl eq_refl)). apply IH.
    intros e' He'. apply Hbefore. now right.
Qed.

(** X16. The search for the journal stops at the first entry of
    [source.names] that has the key [name]: what follows that entry,
    well-formed or not, is never looked at and cannot make the record
    fail. *)
Theorem derive_journal_stops_at_first_name
  (document source : dict) (before : list dict) (hit : dict)
  (rest : list value) :
  dict_get document "source" = Some (VDict source) ->
  dict_get source "names"
  = Some (VList (map VDict before ++ VDict hit :: rest)) ->
  (forall e, In e before -> dict_mem e "name" = false) ->
  dict_mem hit "name" = true ->
  derive_journal document = Ok (dict_get_default hit "name" (VStr "")).
Proof.
  intros Hsource Hnames Hbefore Hhit.
  unfold derive_journal, dict_get_default at 1. rewrite Hsource.
  cbn [get bind]. unfold dict_get_default at 1. rewrite Hnames.
  cbn [iter bind]. now apply next_name_found.
Qed.

Lemma derive_journal_stops_at_first_name_witness :
  derive_journal
    [("source",
      VDict [("names", VList (map VDict [[("lang", VStr "en")]]
                              ++ [VDict [("name", VStr "Nature")];
                                  VInt 5]))])]
  = Ok (dict_get_default [("name", VStr "Nature")] "name" (VStr "")).
Proof.
  apply (derive_journal_stops_at_first_name _
           [("names", VList (map VDict [[("lang", VStr "en")]]
                             ++ [VDict [("name", VStr "Nature")]; VInt 5]))]
           [[("lang", VStr "en")]] [("name", VStr "Nature")] [VInt 5]).
  - reflexivity.
  - reflexivity.
  - intros e [<- | []]. reflexivity.
  - reflexivity.
Defined.

(** Two records that agree on the keys the transform reads are normalised
    alike. *)
Lemma copy_document_reads (document document' : dict) :
  (forall k, In k read_keys -> dict_get document k = dict_get document' k) ->
  copy_document document = copy_document document'.
Proof.
  intros H.
  pose proof (H "abstract" ltac:(cbn; auto 10)) as H1.
  pose proof (H "keep_abstract" ltac:(cbn; auto 10)) as H2.
  pose proof (H "source" ltac:(cbn; auto 10)) as H3.
  pose proof (H "titles" ltac:(cbn; auto 10)) as H4.
  pose proof (H "authors" ltac:(cbn; auto 10)) as H5.
  pose proof (H "year_published" ltac:(cbn; auto 10)) as H6.
  pose proof (H "bibliographic_info" ltac:(cbn; auto 10)) as H7.
  pose proof (H "external_ids" ltac:(cbn; auto 10)) as H8.
  unfold copy_document, derive_abstract, derive_journal, derive_publisher,
    first_title, derive_author, bibliographic_info, derive_ids,
    dict_get_default, dict_mem.
  cbn [getitem].
  now rewrite H1, H2, H3, H4, H5, H6, H7, H8.
Qed.

(** X17. The transform reads eight keys of a staged record and no other:
    setting any other key, such as the [_id] the store adds, changes
    neither the normalised record nor the exception. *)
Theorem copy_document_ignores_other_keys
  (document : dict) (k : string) (v : value) :
  ~ In k read_keys ->
  copy_document (dict_set document k v) = copy_document document.
Proof.
  intros Hk. apply copy_document_reads.
  intros k' Hk'. apply dict_get_set_other. congruence.
Qed.

Lemma copy_document_ignores_other_keys_witness :
  copy_document (dict_set sample_record "_id" (VInt 7))
  = copy_document sample_record.
Proof.
  apply (copy_document_ignores_other_keys sample_record "_id" (VInt 7)).
  cbn. intros H. repeat (destruct H as [H | H]; [discriminate|]). exact H.
Defined.

(** *** Runs that fail, and the two methods one after the other *)

Lemma mapM_raises {A B : Type} (f : A -> result B) (xs : list A) (e : exn) :
  mapM f xs = Raise e <->
  exists before x after,
    xs = (before ++ x :: after)%list /\
    Forall (fun y => exists b, f y = Ok b) before /\
    f x = Raise e.
Proof.
  split.
  - induction xs as [|x xs IH]; cbn [mapM]; [discriminate|].
    destruct (f x) as [b|e'] eqn:Hx; cbn [bind].
    + destruct (mapM f xs) as [bs|e'] eqn:Hxs; cbn [bind]; [discriminate|].
      intros H. injection H as ->.
      destruct (IH eq_refl) as (before & y & after & -> & Hbefore & Hy).
      exists (x :: before), y, after. repeat split; [|assumption].
      constructor; [now exists b | assumption].
    + intros H. injection H as ->.
      exists [], x, xs. repeat split; [constructor | assumption].
  - intros (before & x & after & -> & Hbefore & Hx).
    induction Hbefore as [|y before [b Hy] _ IH]; cbn [app mapM].
    + now rewrite Hx.
    + rewrite Hy. cbn [bind]. now rewrite IH.
Qed.

(** X18. A run of the transform fails exactly when some staged record
    does, with the exception of the first such record in the order of the
    staging collection; the records after it are not looked at, and since
    the only write comes after the loop, nothing is written. *)
Theorem copy_data_raises_at_first_failing_record
  (original_collection : list dict) (filtered_collection : list new_document)
  (e : exn) :
  copy_data original_collection filtered_collection = Raise e <->
  exists before document after,
    original_collection = (before ++ document :: after)%list /\
    Forall (fun d => exists nd, copy_document d = Ok nd) before /\
    copy_document document = Raise e.
Proof.
  rewrite <- mapM_raises. unfold copy_data.
  destruct (mapM copy_document original_collection) as [[|nd nds]|e'];
    cbn [bind]; split; intros H; try discriminate; assumption.
Qed.

Lemma Forall2_Forall_left {A B : Type} (R : A -> B -> Prop)
  (P : A -> Prop) (Q : B -> Prop) (xs : list A) (ys : list B) :
  (forall x y, P x -> R x y -> Q y) ->
  Forall2 R xs ys -> Forall P xs -> Forall Q ys.
Proof.
  intros HPQ H. induction H as [|x y xs ys Hxy _ IH]; intros HP.
  - constructor.
  - apply Forall_cons_iff in HP as [Hx Hxs].
    constructor; [now apply (HPQ x y) | now apply IH].
Qed.

Lemma ingested_abstract (document : dict) (nd : new_document) :
  ingested document -> copy_document document = Ok nd ->
  abstract nd = VStr "".
Proof.
  intros [Hkeep _] H. apply copy_document_ok in H as (Habs & _).
  rewrite Habs. unfold derive_abstract, dict_get_default.
  now rewrite Hkeep.
Qed.

(** X19. The two methods one after the other: whatever the server answers
    and however the ingestion ends, a run of the transform over a staging
    collection that the ingestion filled from empty writes records whose
    abstract is the empty string, one per staged record. *)
Theorem fetch_data_then_copy_data_erases_every_abstract
  (server : Z -> response) (max_results : Z) (fuel : nat)
  (r : result unit) (w : world)
  (filtered_collection after : list new_document) :
  fetch_data server max_results fuel [] = Some (r, w) ->
  copy_data (original_collection w) filtered_collection = Ok after ->
  exists documents,
    after = (filtered_collection ++ documents)%list /\
    List.length documents = List.length (original_collection w) /\
    Forall (fun nd => abstract nd = VStr "") documents.
Proof.
  intros Hfetch Hcopy.
  apply fetch_loop_grows in Hfetch as (added & k & _ & Hcoll & Hadded & _).
  cbn [original_collection app] in Hcoll.
  destruct (mapM copy_document (original_collection w))
    as [documents|e] eqn:Hrun.
  - rewrite (copy_data_written _ _ Hrun) in Hcopy. injection Hcopy as <-.
    apply mapM_Forall2 in Hrun.
    exists documents. repeat split.
    + now apply (Forall2_same_length _ _ _ Hrun).
    + rewrite Hcoll in Hrun.
      apply (Forall2_Forall_left _ ingested _ _ _ ingested_abstract Hrun Hadded).
  - unfold copy_data in Hcopy. rewrite Hrun in Hcopy. discriminate.
Qed.

Lemma fetch_data_then_copy_data_witness :
  exists documents,
    [one_page_normalized] = ([] ++ documents)%list /\
    List.length documents = List.length (original_collection one_page_world) /\
    Forall (fun nd => abstract nd = VStr "") documents.
Proof.
  apply (fetch_data_then_copy_data_erases_every_abstract
           (fun _ => Body (one_page 1)) default_max_results 3
           (Ok tt) one_page_world [] [one_page_normalized]); reflexivity.
Defined.

(** X20. A run of the transform that ends without an exception leaves the
    destination as it was exactly when the staging collection is empty
    (nothing is written then); otherwise the destination grows by as many
    records as the staging collection holds. *)
Theorem copy_data_writes_nothing_only_for_empty_staging
  (original_collection : list dict)
  (filtered_collection after : list new_document) :
  copy_data original_collection filtered_collection = Ok after ->
  (after = filtered_collection <-> original_collection = []) /\
  List.length after
  = (List.length filtered_collection + List.length original_collection)%nat.
Proof.
  intros H.
  destruct (mapM copy_document original_collection)
    as [documents|e] eqn:Hrun.
  - rewrite (copy_data_written _ _ Hrun) in H. injection H as <-.
    apply mapM_Forall2 in Hrun.
    pose proof (Forall2_same_length _ _ _ Hrun) as Hlength.
    split; [|rewrite length_app; lia].
    split.
    + intros Hsame. apply (f_equal (@List.length new_document)) in Hsame.
      rewrite length_app in Hsame.
      destruct original_collection; [reflexivity | simpl in *; lia].
    + intros ->. inversion Hrun. now rewrite app_nil_r.
  - unfold copy_data in H. rewrite Hrun in H. discriminate.
Qed.

Lemma copy_data_writes_nothing_witness :
  ([sample_normalized] = [] <-> [sample_record] = []) /\
  List.length [sample_normalized] = (List.length (@nil new_document) + 1)%nat.
Proof.
  apply (copy_data_writes_nothing_only_for_empty_staging
           [sample_record] [] [sample_normalized]).
  reflexivity.
Defined.

(** *** Second runs, and what a run depends on *)

(** C9. A staging collection that is not empty and of which a run appends
    nothing: the record without [bibliographic_info] raises [KeyError]
    before the only write, so that the record made of [sample_record],
    which comes first and is normalised, is not appended either, whatever
    the destination holds. *)
Theorem copy_data_appends_nothing_when_a_record_fails :
  [sample_record; no_bibliographic_info] <> [] /\
  copy_document sample_record = Ok sample_normalized /\
  copy_document no_bibliographic_info = Raise KeyError /\
  forall filtered_collection,
    copy_data [sample_record; no_bibliographic_info] filtered_collection
    = Raise KeyError.
Proof.
  repeat split. discriminate.
Qed.

(** X22. The transform has no guard against a second run: when a run over
    a staging collection ends without an exception, it has appended one
    normalised record per staged record, in order, and any later run over
    the same staging collection appends these same records once more,
    whatever the destination holds by then; the destination grows by the
    size of the staging collection at each run. *)
Theorem copy_data_second_run_appends_the_same_records
  (original_collection : list dict)
  (filtered_collection after : list new_document) :
  copy_data original_collection filtered_collection = Ok after ->
  exists documents,
    after = (filtered_collection ++ documents)%list /\
    Forall2 (fun document nd => copy_document document = Ok nd)
            original_collection documents /\
    List.length documents = List.length original_collection /\
    (original_collection <> [] -> documents <> []) /\
    copy_data original_collection after = Ok (after ++ documents)%list /\
    (forall later,
       copy_data original_collection later = Ok (later ++ documents)%list) /\
    List.length (after ++ documents)%list
    = (List.length filtered_collection
       + 2 * List.length original_collection)%nat.
Proof.
  intros H.
  destruct (mapM copy_document original_collection)
    as [documents|e] eqn:Hrun.
  - rewrite (copy_data_written _ _ Hrun) in H. injection H as <-.
    pose proof (mapM_Forall2 _ _ _ Hrun) as Heach.
    pose proof (Forall2_same_length _ _ _ Heach) as Hlength.
    exists documents. repeat split; try assumption.
    + intros Hnonempty ->.
      destruct original_collection; [congruence | discriminate].
    + now apply copy_data_written.
    + intros later. now apply copy_data_written.
    + rewrite !length_app. lia.
  - unfold copy_data in H. rewrite Hrun in H. discriminate.
Qed.

Lemma copy_data_second_run_witness :
  exists documents,
    [sample_normalized; one_page_normalized] = ([] ++ documents)%list /\
    Forall2 (fun document nd => copy_document document = Ok nd)
            [sample_record; unnamed_first] documents /\
    List.length documents = 2%nat /\
    ([sample_record; unnamed_first] <> [] -> documents <> []) /\
    copy_data [sample_record; unnamed_first]
      [sample_normalized; one_page_normalized]
    = Ok ([sample_normalized; one_page_normalized] ++ documents)%list /\
    (forall later,
       copy_data [sample_record; unnamed_first] later
       = Ok (later ++ documents)%list) /\
    List.length ([sample_normalized; one_page_normalized] ++ documents)%list
    = 4%nat.
Proof.
  apply (copy_data_second_run_appends_the_same_records
           [sample_record; unnamed_first] []
           [sample_normalized; one_page_normalized]).
  reflexivity.
Defined.

(** X23. What the transform does tolerate: a run over staged records that
    have an object as [bibliographic_info] ends without an exception, and
    appends one record per staged record, when [source], [source.names],
    [titles], [authors], [full_name] and [external_ids] are absent or of
    the shape the data model gives them, whatever [publisher] is and
    whatever the other fields hold. *)
Theorem copy_data_completes_on_well_formed_records
  (original_collection : list dict) (filtered_collection : list new_document) :
  forallb staged_record original_collection = true ->
  exists documents,
    List.length documents = List.length original_collection /\
    copy_data original_collection filtered_collection
    = Ok (filtered_collection ++ documents)%list.
Proof.
  intros Hrecords.
  destruct (mapM_total copy_document original_collection) as [documents Hrun].
  { intros document Hin. apply copy_document_total.
    rewrite forallb_forall in Hrecords. now apply Hrecords. }
  exists documents. split.
  - apply (Forall2_same_length _ _ _ (mapM_Forall2 _ _ _ Hrun)).
  - now apply copy_data_written.
Qed.

Lemma copy_data_completes_witness :
  exists documents,
    List.length documents = 2%nat /\
    copy_data [[("bibliographic_info", VDict [])];
               [("bibliographic_info", VDict []); ("source", VDict []);
                ("authors", VList [VDict []]);
                ("titles", VList [VDict []]);
                ("external_ids", VList [VDict []])]] []
    = Ok ([] ++ documents)%list.
Proof.
  apply (copy_data_completes_on_well_formed_records
           [[("bibliographic_info", VDict [])];
            [("bibliographic_info", VDict []); ("source", VDict []);
             ("authors", VList [VDict []]);
             ("titles", VList [VDict []]);
             ("external_ids", VList [VDict []])]] []).
  reflexivity.
Defined.

Lemma mapM_copy_document_reads (staging staging' : list dict) :
  Forall2 same_read_fields staging staging' ->
  mapM copy_document staging = mapM copy_document staging'.
Proof.
  induction 1 as [|d d' staging staging' Hsame _ IH]; [reflexivity|].
  cbn [mapM]. now rewrite (copy_document_reads d d' Hsame), IH.
Qed.

(** C10. What a run writes depends on nothing but the fields that the
    transform reads in the staged records, taken in order: two runs over
    staging collections whose records agree, one by one, on these fields
    (among them two runs over the same records in the same order) end
    alike, with the same exception or with the same sequence of normalised
    records written, element for element, whatever the two destinations
    hold and whatever the records hold under other keys. *)
Theorem copy_data_writes_depend_on_read_fields_only
  (staging staging' : list dict) :
  Forall2 same_read_fields staging staging' ->
  (forall filtered filtered' after after',
     copy_data staging filtered = Ok after ->
     copy_data staging' filtered' = Ok after' ->
     exists documents,
       after = (filtered ++ documents)%list /\
       after' = (filtered' ++ documents)%list /\
       Forall2 (fun document nd => copy_document document = Ok nd)
               staging documents /\
       Forall2 (fun document nd => copy_document document = Ok nd)
               staging' documents) /\
  (forall filtered filtered' e,
     copy_data staging filtered = Raise e <->
     copy_data staging' filtered' = Raise e).
Proof.
  intros Hsame. apply mapM_copy_document_reads in Hsame.
  split.
  - intros filtered filtered' after after' H H'.
    destruct (mapM copy_document staging') as [documents|e] eqn:Hrun'.
    + pose proof Hsame as Hrun.
      rewrite (copy_data_written _ _ Hrun) in H.
      rewrite (copy_data_written _ _ Hrun') in H'.
      injection H as <-. injection H' as <-.
      exists documents. repeat split; now apply mapM_Forall2.
    + unfold copy_data in H'. rewrite Hrun' in H'. discriminate.
  - intros filtered filtered' e. unfold copy_data. rewrite Hsame.
    destruct (mapM copy_document staging') as [[|nd nds]|e'];
      cbn [bind]; split; intros H; try discriminate; assumption.
Qed.

Lemma copy_data_writes_depend_on_read_fields_witness :
  (forall filtered filtered' after after',
     copy_data [sample_record] filtered = Ok after ->
     copy_data [dict_set sample_record "_id" (VInt 7)] filtered' = Ok after' ->
     exists documents,
       after = (filtered ++ documents)%list /\
       after' = (filtered' ++ documents)%list /\
       Forall2 (fun document nd => copy_document document = Ok nd)
               [sample_record] documents /\
       Forall2 (fun document nd => copy_document document = Ok nd)
               [dict_set sample_record "_id" (VInt 7)] documents) /\
  (forall filtered filtered' e,
     copy_data [sample_record] filtered = Raise e <->
     copy_data [dict_set sample_record "_id" (VInt 7)] filtered' = Raise e).
Proof.
  apply (copy_data_writes_depend_on_read_fields_only
           [sample_record] [dict_set sample_record "_id" (VInt 7)]).
  repeat constructor.
  intros k Hk. symmetry. apply dict_get_set_other.
  cbn in Hk. intros <-.
  repeat (destruct Hk as [Hk | Hk]; [discriminate|]). exact Hk.
Defined.
